(** * Order intake handler of [src/server.js]

    A shallow embedding of the [POST /orders/raw] handler, of [calcTotals]
    and of [withConn], together with a small model of the storage
    connection the handler talks to.

    JavaScript numbers are IEEE binary64 values and are modelled by Rocq's
    primitive floats; request bodies are JSON values.  An expression that
    may throw is an [option], [None] standing for the exception. *)

From Stdlib Require Import ZArith List String Bool Lia.
From Stdlib Require Import PrimFloat FloatOps SpecFloat.
From Stdlib Require QArith Qround.
Import ListNotations.

Local Open Scope string_scope.
Local Open Scope list_scope.

Set Warnings "-register-all,-inexact-float".

(** ** JavaScript values *)

(** A request body after [express.json()]: a JSON value.  [VUndefined] is
    what reading an absent property yields. *)
Inductive value : Type :=
| VUndefined
| VNull
| VBool (b : bool)
| VNum (n : float)
| VStr (s : string)
| VArr (items : list value)
| VObj (fields : list (string * value)).

Fixpoint lookup (k : string) (fields : list (string * value)) : value :=
  match fields with
  | [] => VUndefined
  | (k', v) :: rest => if String.eqb k k' then v else lookup k rest
  end.

(** [v == null] *)
Definition is_nullish (v : value) : bool :=
  match v with
  | VUndefined | VNull => true
  | _ => false
  end.

(** Property read [v.k] for the field names the handler uses.  Reading a
    property of [null] or [undefined] throws a TypeError ([None]); a
    primitive or an array has none of these names. *)
Definition member (v : value) (k : string) : option value :=
  match v with
  | VUndefined | VNull => None
  | VObj fields => Some (lookup k fields)
  | _ => Some VUndefined
  end.

(** ToBoolean *)
Definition truthy (v : value) : bool :=
  match v with
  | VUndefined | VNull => false
  | VBool b => b
  | VNum n => negb (PrimFloat.is_zero n || PrimFloat.is_nan n)
  | VStr s => negb (String.eqb s "")
  | VArr _ | VObj _ => true
  end.

(** [a ?? b] *)
Definition coalesce (a b : value) : value :=
  if is_nullish a then b else a.

(** [a || b] *)
Definition or_else (a b : value) : value :=
  if truthy a then a else b.

Definition isArray (v : value) : bool :=
  match v with
  | VArr _ => true
  | _ => false
  end.

(** ** [Math.round]

    The integer closest to the argument, ties going towards +infinity;
    NaN, infinities, zeros and integral values are returned unchanged. *)

(** [floor (num/den + 1/2)] for [den > 0]. *)
Definition half_up (num den : Z) : Z := ((2 * num + den) / (2 * den))%Z.

Definition float_of_Z (z : Z) : float :=
  match z with
  | Z0 => PrimFloat.zero
  | Zpos p => PrimFloat.of_uint63 (Uint63Axioms.of_Z (Zpos p))
  | Zneg p => PrimFloat.opp (PrimFloat.of_uint63 (Uint63Axioms.of_Z (Zpos p)))
  end.

Definition Math_round (x : float) : float :=
  match Prim2SF x with
  | S754_finite s m e =>
      if (0 <=? e)%Z then x
      else
        let num := if s then Zneg m else Zpos m in
        let n := half_up num (2 ^ (- e))%Z in
        if (n =? 0)%Z then (if s then PrimFloat.neg_zero else PrimFloat.zero)
        else float_of_Z n
  | _ => x
  end.

(** The expression [Math.round(t * 100) / 100] of [calcTotals]. *)
Definition round2 (t : float) : float :=
  (Math_round (t * 100) / 100)%float.

(** ** Numeric coercion and [calcTotals] *)

Record totals : Type := mkTotals {
  totalAmount : float;
  totalDiscount : float
}.

(** Sequencing of steps that may throw: [None] is the exception. *)
Notation "'let?' x ':=' e 'in' k" :=
  (match e with
   | Some x => k
   | None => None
   end)
  (at level 10, x name, e at level 100, k at level 200, only parsing).

(** The message of the TypeError that a failed conversion to a primitive
    throws. *)
Definition type_error : string := "Cannot convert object to primitive value".

Section Runtime.

(** The two conversions of the JavaScript runtime that read text:
    StringToNumber, and the string an array or a plain object converts to
    (ToPrimitive).  The second one throws a TypeError ([None]) on some
    values that JSON can carry: an object with an entry of its own named
    [toString], an array holding one.  The handler never inspects how they
    work. *)
Variable StringToNumber : string -> float.
Variable ObjectToString : value -> option string.

(** [Number(v)]; [None] when the conversion throws. *)
Definition Number (v : value) : option float :=
  match v with
  | VUndefined => Some PrimFloat.nan
  | VNull => Some PrimFloat.zero
  | VBool true => Some PrimFloat.one
  | VBool false => Some PrimFloat.zero
  | VNum n => Some n
  | VStr s => Some (StringToNumber s)
  | VArr _ | VObj _ => option_map StringToNumber (ObjectToString v)
  end.

(** The body of the [for (const l of lines)] loop, threading the two
    accumulators; [None] when a property read or a conversion throws. *)
Fixpoint calcTotals_loop (lines : list value) (totalAmount totalDiscount : float)
  : option (float * float) :=
  match lines with
  | [] => Some (totalAmount, totalDiscount)
  | l :: rest =>
      let? q := member l "qty" in
      let? qty := Number (coalesce q (VNum PrimFloat.zero)) in
      let? u := member l "unit_price" in
      let? unit := Number (coalesce u (VNum PrimFloat.zero)) in
      let? d := member l "discount" in
      let? disc := Number (coalesce d (VNum PrimFloat.zero)) in
      calcTotals_loop rest (totalAmount + qty * unit)%float
                           (totalDiscount + disc)%float
  end.

Definition calcTotals (lines : list value) : option totals :=
  match calcTotals_loop lines PrimFloat.zero PrimFloat.zero with
  | Some (a, d) => Some (mkTotals (round2 a) (round2 d))
  | None => None
  end.

End Runtime.

(** ** Storage

    The relational engine is outside the repository.  It is modelled as two
    tables, a working copy private to the open connection, and an
    environment that may reject any call.  NUMBER columns hold finite
    values only: binding NaN or an infinity is rejected by the engine. *)

(** A finite binary64 value [m * 2^e], as stored in a NUMBER column. *)
Definition db_number : Type := (Z * Z)%type.

Definition to_db_number (f : float) : option db_number :=
  match Prim2SF f with
  | S754_zero _ => Some (0, 0)%Z
  | S754_finite s m e => Some (if s then Zneg m else Zpos m, e)
  | _ => None
  end.

Definition db_number_eqb (a b : db_number) : bool :=
  (fst a =? fst b)%Z && (snd a =? snd b)%Z.

(** [order_date ? new Date(order_date) : new Date()] *)
Inductive date_bind : Type :=
| DateOf (v : value)
| DateNow.

(** Bind object of the [INSERT INTO ORDERS] statement. *)
Record order_binds : Type := mkOrderBinds {
  ob_ord_id : float;
  ob_order_date : date_bind;
  ob_total_amount : float;
  ob_total_discount : float;
  ob_usr_id : float;
  ob_pay_stat_id : float
}.

(** One bind object of the [INSERT INTO ORD_DTL] batch; [seq = None] is the
    JavaScript [null] that leaves SEQ to the trigger TRG_ORD_DTL_SEQ. *)
Record line_binds : Type := mkLineBinds {
  ord_id : float;
  seq : option float;
  qty : float;
  unit_price : float;
  discount : float;
  comment_text : value;
  rating : value;
  prd_id : float;
  shp_stat_id : float
}.

Record order_row : Type := mkOrderRow {
  ORD_ID : db_number;
  ORDER_DATE : date_bind;
  TOTAL_AMOUNT : db_number;
  TOTAL_DISCOUNT : db_number;
  USR_ID : db_number;
  PAY_STAT_ID : db_number
}.

(** [DTL_SEQ = None]: SEQ was bound NULL and is the trigger's to assign. *)
Record dtl_row : Type := mkDtlRow {
  DTL_ORD_ID : db_number;
  DTL_SEQ : option db_number;
  DTL_QTY : db_number;
  DTL_UNIT_PRICE : db_number;
  DTL_DISCOUNT : db_number;
  DTL_COMMENT_TEXT : value;
  DTL_RATING : value;
  DTL_PRD_ID : db_number;
  DTL_SHP_STAT_ID : db_number
}.

Record storage : Type := mkStorage {
  ORDERS : list order_row;
  ORD_DTL : list dtl_row
}.

Definition row_of_order_binds (b : order_binds) : option order_row :=
  match to_db_number (ob_ord_id b), to_db_number (ob_total_amount b),
        to_db_number (ob_total_discount b), to_db_number (ob_usr_id b),
        to_db_number (ob_pay_stat_id b) with
  | Some k, Some ta, Some td, Some u, Some p =>
      Some (mkOrderRow k (ob_order_date b) ta td u p)
  | _, _, _, _, _ => None
  end.

Definition seq_column (s : option float) : option (option db_number) :=
  match s with
  | None => Some None
  | Some f => option_map Some (to_db_number f)
  end.

Definition row_of_line_binds (b : line_binds) : option dtl_row :=
  match to_db_number (ord_id b), seq_column (seq b), to_db_number (qty b),
        to_db_number (unit_price b), to_db_number (discount b),
        to_db_number (prd_id b), to_db_number (shp_stat_id b) with
  | Some k, Some s, Some q, Some u, Some d, Some p, Some sh =>
      Some (mkDtlRow k s q u d (comment_text b) (rating b) p sh)
  | _, _, _, _, _, _, _ => None
  end.

(** The two statements the handler passes to [conn.execute]. *)
Inductive statement : Type :=
| SelectOrder (id : float)       (* SELECT 1 FROM ORDERS WHERE ORD_ID = :id *)
| InsertOrder (b : order_binds). (* INSERT INTO ORDERS (...) VALUES (...) *)

(** What [conn.execute] resolves to; only [rows] is read. *)
Record result : Type := mkResult { rows : list Z }.

Definition err_invalid_number : string := "invalid number".
Definition err_unique_constraint : string := "ORA-00001: unique constraint violated".

Definition has_order (k : db_number) (s : storage) : bool :=
  existsb (fun r => db_number_eqb (ORD_ID r) k) (ORDERS s).

(** One statement against the connection's working copy. *)
Definition exec_statement (s : statement) (work : storage)
  : (string + result) * storage :=
  match s with
  | SelectOrder id =>
      match to_db_number id with
      | None => (inl err_invalid_number, work)
      | Some k =>
          let hits := filter (fun r => db_number_eqb (ORD_ID r) k) (ORDERS work) in
          (inr (mkResult (map (fun _ => 1%Z) hits)), work)
      end
  | InsertOrder b =>
      match row_of_order_binds b with
      | None => (inl err_invalid_number, work)
      | Some r =>
          if has_order (ORD_ID r) work then (inl err_unique_constraint, work)
          else (inr (mkResult []), mkStorage (ORDERS work ++ [r]) (ORD_DTL work))
      end
  end.

(** [INSERT INTO ORD_DTL] over a batch: rows go in one by one, and the rows
    before a rejected one stay in the working copy. *)
Fixpoint insert_lines (binds : list line_binds) (work : storage)
  : option string * storage :=
  match binds with
  | [] => (None, work)
  | b :: rest =>
      match row_of_line_binds b with
      | None => (Some err_invalid_number, work)
      | Some r => insert_lines rest (mkStorage (ORDERS work) (ORD_DTL work ++ [r]))
      end
  end.

(** A rejection by the environment (lost connection, a constraint the model
    does not know, ...): the message thrown, and how many rows of a batch
    were applied to the working copy before it. *)
Record fault : Type := mkFault {
  fault_message : string;
  fault_partial : nat
}.

(** The environment of one request: whether [getConnection] rejects, which
    calls on the connection (numbered from 0) are rejected, and whether
    [close] rejects. *)
Record env : Type := mkEnv {
  connect_fault : option string;
  call_fault : nat -> option fault;
  close_fault : bool
}.

Inductive event : Type :=
| EvGetConnection
| EvExecute (s : statement) (autoCommit : bool)
| EvExecuteMany (binds : list line_binds) (autoCommit : bool)
| EvCommit
| EvClose.

(** What the process and the engine hold between requests. *)
Record world : Type := mkWorld {
  durable : storage;
  open_connections : nat;
  log : list event
}.

(** An open connection: committed data, the uncommitted working copy, the
    number of calls made so far, and the calls logged. *)
Record conn_state : Type := mkConn {
  cs_durable : storage;
  cs_work : storage;
  cs_calls : nat;
  cs_log : list event
}.

Definition called (ev : event) (c : conn_state) : conn_state :=
  mkConn (cs_durable c) (cs_work c) (S (cs_calls c)) (cs_log c ++ [ev]).

Definition set_work (w : storage) (c : conn_state) : conn_state :=
  mkConn (cs_durable c) w (cs_calls c) (cs_log c).

Definition commit (c : conn_state) : conn_state :=
  mkConn (cs_work c) (cs_work c) (cs_calls c) (cs_log c).

Definition auto_commit (autoCommit : bool) (c : conn_state) : conn_state :=
  if autoCommit then commit c else c.

(** ** Callbacks of [withConn]

    What an [async (conn) => ...] callback can do with its connection:
    return, throw, [conn.execute], [conn.executeMany], [conn.commit]. *)
Inductive conn_prog (A : Type) : Type :=
| Return (a : A)
| Throw (message : string)
| Execute (s : statement) (autoCommit : bool) (k : result -> conn_prog A)
| ExecuteMany (binds : list line_binds) (autoCommit : bool) (k : conn_prog A)
| Commit (k : conn_prog A).

Arguments Return {A} a.
Arguments Throw {A} message.
Arguments Execute {A} s autoCommit k.
Arguments ExecuteMany {A} binds autoCommit k.
Arguments Commit {A} k.

Inductive outcome (A : Type) : Type :=
| Returned (a : A)
| Threw (message : string).

Arguments Returned {A} a.
Arguments Threw {A} message.

Fixpoint run_conn {A : Type} (e : env) (p : conn_prog A) (c : conn_state)
  : outcome A * conn_state :=
  match p with
  | Return a => (Returned a, c)
  | Throw m => (Threw m, c)
  | Execute s ac k =>
      let c1 := called (EvExecute s ac) c in
      match call_fault e (cs_calls c) with
      | Some f => (Threw (fault_message f), c1)
      | None =>
          match exec_statement s (cs_work c) with
          | (inl m, _) => (Threw m, c1)
          | (inr r, w') => run_conn e (k r) (auto_commit ac (set_work w' c1))
          end
      end
  | ExecuteMany binds ac k =>
      let c1 := called (EvExecuteMany binds ac) c in
      match call_fault e (cs_calls c) with
      | Some f =>
          let w' := snd (insert_lines (firstn (fault_partial f) binds) (cs_work c)) in
          (Threw (fault_message f), set_work w' c1)
      | None =>
          match insert_lines binds (cs_work c) with
          | (Some m, w') => (Threw m, set_work w' c1)
          | (None, w') => run_conn e k (auto_commit ac (set_work w' c1))
          end
      end
  | Commit k =>
      let c1 := called EvCommit c in
      match call_fault e (cs_calls c) with
      | Some f => (Threw (fault_message f), c1)
      | None => run_conn e k (commit c1)
      end
  end.

(** [withConn(fn)]: [try { conn = await getConnection(...); return await
    fn(conn) } finally { if (conn) { try { await conn.close() } catch {} } }].
    Closing drops the working copy; a rejected [close] is swallowed and
    leaves the connection open. *)
Definition withConn {A : Type} (e : env) (fn : conn_prog A) (w : world)
  : outcome A * world :=
  let log1 := log w ++ [EvGetConnection] in
  match connect_fault e with
  | Some m => (Threw m, mkWorld (durable w) (open_connections w) log1)
  | None =>
      let c0 := mkConn (durable w) (durable w) 0 log1 in
      let (r, c) := run_conn e fn c0 in
      let still_open := if close_fault e then 1 else 0 in
      (r, mkWorld (cs_durable c) (open_connections w + still_open)
                  (cs_log c ++ [EvClose]))
  end.

(** ** The [POST /orders/raw] handler *)

(** The [error] string of a failure response.  The two template literals
    keep the interpolated value as it is. *)
Inductive message : Type :=
| MsgText (s : string)
| MsgLine (i : nat)         (* `lines[${i}] must have prd_id, qty, unit_price, shp_stat_id` *)
| MsgExists (ord_id : value). (* `ORD_ID ${ord_id} already exists` *)

Inductive json_body : Type :=
| OkBody (ord_id total_amount total_discount : float)
| ErrBody (error : message).

Record response : Type := mkResponse {
  status : nat;
  body : json_body
}.

(** A request ends in a response, or in a TypeError thrown out of the
    handler before its [try] block. *)
Inductive reply : Type :=
| Responded (r : response)
| Uncaught.

Definition required_message : string :=
  "ord_id, usr_id, pay_stat_id, lines[] are required".

(** Property read on a value known not to be [null] or [undefined]. *)
Definition field (v : value) (k : string) : value :=
  match v with
  | VObj fields => lookup k fields
  | _ => VUndefined
  end.

Definition items (v : value) : list value :=
  match v with
  | VArr xs => xs
  | _ => []
  end.

(** The condition of the per-line [if]: [Some true] when the line is
    rejected, [None] when reading the line throws. *)
Definition line_rejected (l : value) : option bool :=
  match member l "prd_id", member l "qty", member l "unit_price",
        member l "shp_stat_id" with
  | Some p, Some q, Some u, Some s =>
      Some (negb (truthy p) || is_nullish q || is_nullish u || negb (truthy s))
  | _, _, _, _ => None
  end.

Inductive validation : Type :=
| AllLinesPass
| Offending (i : nat)
| LineThrows.

(** [for (const [i, l] of lines.entries()) { if (...) return 400 }] *)
Fixpoint validate_lines (i : nat) (lines : list value) : validation :=
  match lines with
  | [] => AllLinesPass
  | l :: rest =>
      match line_rejected l with
      | None => LineThrows
      | Some true => Offending i
      | Some false => validate_lines (S i) rest
      end
  end.

(** The first [if] of the handler. *)
Definition header_rejected (ord_id usr_id pay_stat_id lines : value) : bool :=
  is_nullish ord_id || is_nullish usr_id || is_nullish pay_stat_id
  || negb (isArray lines) || (List.length (items lines) =? 0)%nat.

Section Handler.

Variable StringToNumber : string -> float.
Variable ObjectToString : value -> option string.

Local Abbreviation Number := (Number StringToNumber ObjectToString).
Local Abbreviation calcTotals := (calcTotals StringToNumber ObjectToString).

(** [l.seq == null ? null : Number(l.seq)] *)
Definition bind_seq (l : value) : option (option float) :=
  if is_nullish (field l "seq") then Some None
  else option_map Some (Number (field l "seq")).

(** [l.discount == null ? 0 : Number(l.discount)] *)
Definition bind_discount (l : value) : option float :=
  if is_nullish (field l "discount") then Some PrimFloat.zero
  else Number (field l "discount").

(** The arrow function of [lines.map((l) => ({ ... }))], its properties
    evaluated in order; the lines have passed validation, so no property
    read throws, but a conversion may. *)
Definition bind_line (ord_id l : value) : option line_binds :=
  let? id := Number ord_id in
  let? sq := bind_seq l in
  let? q := Number (field l "qty") in
  let? u := Number (field l "unit_price") in
  let? d := bind_discount l in
  let? p := Number (field l "prd_id") in
  let? sh := Number (field l "shp_stat_id") in
  Some {| ord_id := id;
          seq := sq;
          qty := q;
          unit_price := u;
          discount := d;
          comment_text := coalesce (field l "comment_text") VNull;
          rating := coalesce (field l "rating") VNull;
          prd_id := p;
          shp_stat_id := sh |}.

(** [lines.map(...)]: it throws at the first line whose binds throw. *)
Fixpoint bind_lines (ord_id : value) (lines : list value)
  : option (list line_binds) :=
  match lines with
  | [] => Some []
  | l :: rest =>
      let? b := bind_line ord_id l in
      let? bs := bind_lines ord_id rest in
      Some (b :: bs)
  end.

(** [order_date ? new Date(order_date) : new Date()]; [new Date(v)]
    converts an array or an object to a primitive first, and throws when
    that conversion does. *)
Definition bind_date (order_date : value) : option date_bind :=
  if truthy order_date then
    match order_date with
    | VArr _ | VObj _ =>
        let? s := ObjectToString order_date in Some (DateOf order_date)
    | _ => Some (DateOf order_date)
    end
  else Some DateNow.

(** The bind object of the header insert, its properties evaluated in
    order. *)
Definition bind_order (ord_id order_date usr_id pay_stat_id : value)
           (totalAmount totalDiscount : float) : option order_binds :=
  let? id := Number ord_id in
  let? date := bind_date order_date in
  let? usr := Number usr_id in
  let? pay := Number pay_stat_id in
  Some {| ob_ord_id := id;
          ob_order_date := date;
          ob_total_amount := totalAmount;
          ob_total_discount := totalDiscount;
          ob_usr_id := usr;
          ob_pay_stat_id := pay |}.

(** The callback passed to [withConn]; it returns [conflict].  The
    arguments of a call are evaluated before the call is made, so a
    conversion that throws leaves the call unmade.  The SELECT is executed
    without options, which is [autoCommit: false], the driver's default that
    the file leaves as it is. *)
Definition order_tx (ord_id order_date usr_id pay_stat_id : value)
           (lines : list value) (totalAmount totalDiscount : float)
  : conn_prog bool :=
  match Number ord_id with
  | None => Throw type_error
  | Some id =>
      Execute (SelectOrder id) false (fun exists_ =>
        if (0 <? List.length (rows exists_))%nat then Return true
        else
          match bind_order ord_id order_date usr_id pay_stat_id
                           totalAmount totalDiscount with
          | None => Throw type_error
          | Some header =>
              Execute (InsertOrder header) false (fun _ =>
                match bind_lines ord_id lines with
                | None => Throw type_error
                | Some binds =>
                    ExecuteMany binds false (Commit (Return false))
                end)
          end)
  end.

(** [supplied != null ? Number(supplied) : computed] *)
Definition resolve_total (supplied : value) (computed : float) : option float :=
  if negb (is_nullish supplied) then Number supplied else Some computed.

(** The lines after [withConn] has settled, inside the [try]. *)
Definition respond (ord_id : value) (totalAmount totalDiscount : float)
           (r : outcome bool * world) : reply * world :=
  match r with
  | (Threw m, w') => (Responded (mkResponse 500 (ErrBody (MsgText m))), w')
  | (Returned true, w') =>
      (Responded (mkResponse 409 (ErrBody (MsgExists ord_id))), w')
  | (Returned false, w') =>
      match Number ord_id with
      | Some id =>
          (Responded (mkResponse 200 (OkBody id totalAmount totalDiscount)), w')
      | None =>
          (Responded (mkResponse 500 (ErrBody (MsgText type_error))), w')
      end
  end.

Definition orders_raw (e : env) (req_body : value) (w : world) : reply * world :=
  let body := or_else req_body (VObj []) in
  let ord_id := field body "ord_id" in
  let order_date := field body "order_date" in
  let usr_id := field body "usr_id" in
  let pay_stat_id := field body "pay_stat_id" in
  let lines := field body "lines" in
  if header_rejected ord_id usr_id pay_stat_id lines then
    (Responded (mkResponse 400 (ErrBody (MsgText required_message))), w)
  else
    match validate_lines 0 (items lines) with
    | Offending i => (Responded (mkResponse 400 (ErrBody (MsgLine i))), w)
    | LineThrows => (Uncaught, w)
    | AllLinesPass =>
        match calcTotals (items lines) with
        | None => (Uncaught, w)
        | Some computed =>
            match resolve_total (field body "total_amount")
                                (totalAmount computed) with
            | None => (Uncaught, w)
            | Some totalAmount =>
                match resolve_total (field body "total_discount")
                                    (totalDiscount computed) with
                | None => (Uncaught, w)
                | Some totalDiscount =>
                    respond ord_id totalAmount totalDiscount
                      (withConn e (order_tx ord_id order_date usr_id pay_stat_id
                                            (items lines) totalAmount totalDiscount)
                                w)
                end
            end
        end
    end.

End Handler.

(** ** The specification's vocabulary *)

(** A 200 response. *)
Definition is_success (r : reply) : bool :=
  match r with
  | Responded (mkResponse 200 (OkBody _ _ _)) => true
  | _ => false
  end.

(** The calls a callback makes on its connection. *)
Definition is_call (ev : event) : bool :=
  match ev with
  | EvExecute _ _ | EvExecuteMany _ _ | EvCommit => true
  | EvGetConnection | EvClose => false
  end.

Definition is_close (ev : event) : bool :=
  match ev with
  | EvClose => true
  | _ => false
  end.

Definition count_events (p : event -> bool) (l : list event) : nat :=
  List.length (filter p l).

(** "The order key, user reference, or payment-status reference is absent
    or null, or the line list is missing or empty." *)
Definition header_incomplete (req_body : value) : bool :=
  is_nullish (field req_body "ord_id")
  || is_nullish (field req_body "usr_id")
  || is_nullish (field req_body "pay_stat_id")
  || is_nullish (field req_body "lines")
  || match field req_body "lines" with
     | VArr [] => true
     | _ => false
     end.

(** "The line is missing its product reference, quantity, unit price, or
    shipment-status reference." *)
Definition line_missing_field (l : value) : bool :=
  is_nullish (field l "prd_id") || is_nullish (field l "qty")
  || is_nullish (field l "unit_price") || is_nullish (field l "shp_stat_id").

(** What the per-line check rejects: a product or shipment-status reference
    that is not truthy, or a quantity or unit price that is absent or null. *)
Definition line_unacceptable (l : value) : bool :=
  negb (truthy (field l "prd_id")) || is_nullish (field l "qty")
  || is_nullish (field l "unit_price") || negb (truthy (field l "shp_stat_id")).


(** Both [if]s of the handler let the request through. *)
Definition passes_validation (req_body : value) : bool :=
  negb (header_rejected (field req_body "ord_id") (field req_body "usr_id")
                        (field req_body "pay_stat_id") (field req_body "lines"))
  && match validate_lines 0 (items (field req_body "lines")) with
     | AllLinesPass => true
     | _ => false
     end.

(** The loop stops at the first line its check rejects. *)
Definition first_rejected (ls : list value) (j : nat) : Prop :=
  (exists l, nth_error ls j = Some l /\ line_rejected l = Some true) /\
  (forall j', j' < j ->
     exists l', nth_error ls j' = Some l' /\ line_rejected l' = Some false).

(** Line [i] is the first one the per-line check does not accept. *)
Definition first_unacceptable (ls : list value) (i : nat) : Prop :=
  (exists l, nth_error ls i = Some l /\ line_unacceptable l = true) /\
  (forall j, j < i ->
     exists l', nth_error ls j = Some l' /\ line_unacceptable l' = false).

(** The rows a batch of bind objects turns into. *)
Definition rows_of_binds (binds : list line_binds) (rows : list dtl_row) : Prop :=
  Forall2 (fun b r => row_of_line_binds b = Some r) binds rows.

(** Sum in list order, from 0. *)
Definition sum_floats (xs : list float) : float :=
  fold_left PrimFloat.add xs PrimFloat.zero.


(** Every element, when none is missing. *)
Fixpoint all_some {A : Type} (xs : list (option A)) : option (list A) :=
  match xs with
  | [] => Some []
  | x :: rest =>
      let? y := x in
      let? ys := all_some rest in
      Some (y :: ys)
  end.

(** ** Exact values and decimal rounding *)

Local Abbreviation Q := QArith_base.Q.
Local Abbreviation Qmult := QArith_base.Qmult.
Local Abbreviation Qplus := QArith_base.Qplus.
Local Abbreviation inject_Z := QArith_base.inject_Z.

(** The rational number a finite binary64 value stands for. *)
Definition exact (f : float) : option Q :=
  match Prim2SF f with
  | S754_zero _ => Some (inject_Z 0)
  | S754_finite s m e =>
      Some (Qmult (inject_Z (if s then Zneg m else Zpos m))
                  (QArith_base.Qpower (inject_Z 2) e))
  | _ => None
  end.

(** "Standard half-up rounding to 2 decimal places": the number of
    hundredths nearest to [q], a half going up. *)
Definition half_up_cents (q : Q) : Z :=
  Qround.Qfloor (Qplus (Qmult q (inject_Z 100)) (QArith_base.Qmake 1 2)).

(** The binary64 value nearest to [c] hundredths. *)
Definition number_of_cents (c : Z) : float :=
  (SF2Prim (binary_normalize prec emax c 0 false) / 100)%float.

Definition half_up_2dp (q : Q) : float :=
  number_of_cents (half_up_cents q).

(** The binary64 value of the decimal literal [n / 10^k], for [n] below
    2^53 and [k] up to 22: both operands are exact and the division rounds
    to nearest. *)
Definition decimal (n : Z) (k : nat) : float :=
  (SF2Prim (binary_normalize prec emax n 0 false)
   / SF2Prim (binary_normalize prec emax (10 ^ Z.of_nat k) 0 false))%float.

Section Totals.

Variable StringToNumber : string -> float.
Variable ObjectToString : value -> option string.

Local Abbreviation Number := (Number StringToNumber ObjectToString).

(** "quantity × unit price" of one line, in binary64. *)
Definition line_amount (l : value) : option float :=
  let? q := Number (field l "qty") in
  let? u := Number (field l "unit_price") in
  Some (q * u)%float.

(** "each line's discount (a missing discount counting as 0)". *)
Definition line_discount (l : value) : option float :=
  if is_nullish (field l "discount") then Some PrimFloat.zero
  else Number (field l "discount").

(** The totals in binary64 arithmetic: the sum over lines of (quantity ×
    unit price), added up in line order from 0, and passed once through
    [Math.round(t * 100) / 100]. *)
Definition rounded_sum_amount (lines : list value) : option float :=
  let? xs := all_some (map line_amount lines) in
  Some (round2 (sum_floats xs)).

(** The sum over lines of each line's discount, likewise. *)
Definition rounded_sum_discount (lines : list value) : option float :=
  let? xs := all_some (map line_discount lines) in
  Some (round2 (sum_floats xs)).

(** The reading the specification rules out: rounding every line's
    contribution, then adding. *)
Definition per_line_rounded_amount (lines : list value) : option float :=
  let? xs := all_some (map line_amount lines) in
  Some (sum_floats (map round2 xs)).

(** The totals in the specification's words, "standard half-up rounding to
    2 decimal places on the sum", over the exact values of the numbers
    received: the exact product of the quantity and unit price of a line
    ... *)
Definition exact_line_amount (l : value) : option Q :=
  let? q := Number (field l "qty") in
  let? u := Number (field l "unit_price") in
  let? eq := exact q in
  let? eu := exact u in
  Some (Qmult eq eu).

(** ... their exact sum over the lines, rounded half-up to 2 decimal
    places. *)
Definition half_up_total_amount (lines : list value) : option float :=
  let? xs := all_some (map exact_line_amount lines) in
  Some (half_up_2dp (fold_right Qplus (inject_Z 0) xs)).

End Totals.

(** ** A request that reaches the transaction *)

Section Submitted.

Variable StringToNumber : string -> float.
Variable ObjectToString : value -> option string.

Local Abbreviation Number := (Number StringToNumber ObjectToString).
Local Abbreviation calcTotals := (calcTotals StringToNumber ObjectToString).
Local Abbreviation bind_line := (bind_line StringToNumber ObjectToString).
Local Abbreviation bind_lines := (bind_lines StringToNumber ObjectToString).
Local Abbreviation bind_order := (bind_order StringToNumber ObjectToString).
Local Abbreviation order_tx := (order_tx StringToNumber ObjectToString).
Local Abbreviation resolve_total := (resolve_total StringToNumber ObjectToString).
Local Abbreviation orders_raw := (orders_raw StringToNumber ObjectToString).

(** The two totals the handler has resolved when it enters its [try]
    block; [None] when validation stops the request or when [calcTotals] or
    the conversion of a supplied total throws. *)
Definition resolved_totals (b : value) : option (float * float) :=
  if passes_validation b then
    let? computed := calcTotals (items (field b "lines")) in
    let? ta := resolve_total (field b "total_amount") (totalAmount computed) in
    let? td := resolve_total (field b "total_discount") (totalDiscount computed) in
    Some (ta, td)
  else None.

(** The transaction such a request runs. *)
Definition submitted_tx (b : value) (ta td : float) : conn_prog bool :=
  order_tx (field b "ord_id") (field b "order_date") (field b "usr_id")
           (field b "pay_stat_id") (items (field b "lines")) ta td.

(** The header bind object and the line bind objects of a request. *)
Definition submitted_header (b : value) (ta td : float) : option order_binds :=
  bind_order (field b "ord_id") (field b "order_date") (field b "usr_id")
             (field b "pay_stat_id") ta td.

Definition submitted_lines (b : value) : option (list line_binds) :=
  bind_lines (field b "ord_id") (items (field b "lines")).

(** The calls of a transaction that runs to its end. *)
Definition tx_calls (id : float) (header : order_binds) (binds : list line_binds)
  : list event :=
  [EvExecute (SelectOrder id) false;
   EvExecute (InsertOrder header) false;
   EvExecuteMany binds false;
   EvCommit].

(** The calls a transaction would make if nothing were rejected, as far as
    the conversions of its arguments let it get. *)
Definition planned_calls (ord_id order_date usr_id pay_stat_id : value)
           (lines : list value) (ta td : float) : list event :=
  match Number ord_id with
  | None => []
  | Some id =>
      EvExecute (SelectOrder id) false ::
      match bind_order ord_id order_date usr_id pay_stat_id ta td with
      | None => []
      | Some header =>
          EvExecute (InsertOrder header) false ::
          match bind_lines ord_id lines with
          | None => []
          | Some binds => [EvExecuteMany binds false; EvCommit]
          end
      end
  end.

(** The sequence number handed to storage for a line: the supplied value
    after numeric coercion, or the null marker when none is supplied. *)
Definition passed_seq (l : value) : option (option float) :=
  if is_nullish (field l "seq") then Some None
  else option_map Some (Number (field l "seq")).

(** A value whose numeric coercion is stored as [n]. *)
Definition stored_as (v : value) (n : db_number) : Prop :=
  exists f, Number v = Some f /\ to_db_number f = Some n.

(** The events a request adds to the log. *)
Definition new_events (e : env) (b : value) (w : world) : list event :=
  skipn (List.length (log w)) (log (snd (orders_raw e b w))).

End Submitted.

(** ** Sample requests *)

(** A runtime for the samples.  No string reads as a number.  A plain
    object converts to the text "[object Object]", unless it has an entry of
    its own named [toString]: then the conversion throws.  The samples put
    no array where a number is read; this runtime lets the conversion of one
    throw. *)
Definition no_text_number (s : string) : float := PrimFloat.nan.

Definition sample_object_text (v : value) : option string :=
  match v with
  | VObj fields =>
      match lookup "toString" fields with
      | VUndefined => Some "[object Object]"
      | _ => None
      end
  | _ => None
  end.

(** The object [{"toString": 0}], which JSON can carry and which no
    conversion to a primitive accepts. *)
Definition unconvertible : value := VObj [("toString", VNum 0%float)].

Definition sample_line (prd q u shp : float) : value :=
  VObj [("prd_id", VNum prd); ("qty", VNum q); ("unit_price", VNum u);
        ("shp_stat_id", VNum shp)].

Definition sample_line_seq (s : float) : value :=
  VObj [("seq", VNum s); ("prd_id", VNum 5%float); ("qty", VNum 2%float);
        ("unit_price", VNum 4%float); ("shp_stat_id", VNum 2%float)].

Definition sample_order (lines : list value) : value :=
  VObj [("ord_id", VNum 123%float); ("usr_id", VNum 10%float);
        ("pay_stat_id", VNum 2%float); ("lines", VArr lines)].

Definition sample_order_totals (ta td : value) (lines : list value) : value :=
  VObj [("ord_id", VNum 123%float); ("usr_id", VNum 10%float);
        ("pay_stat_id", VNum 2%float); ("total_amount", ta);
        ("total_discount", td); ("lines", VArr lines)].

(** The line of the rounding example: quantity 3 at unit price 0.105. *)
Definition rounding_line : value := sample_line 5 3 0.105 2.

(** One unit at the given price. *)
Definition unit_line (price : float) : value := sample_line 5 1 price 2.

Definition no_faults : env := mkEnv None (fun _ => None) false.

(** The engine rejects the header insert (call 1) with a primary-key
    violation. *)
Definition pk_violation_on_insert : env :=
  mkEnv None
        (fun n => if (n =? 1)%nat then Some (mkFault err_unique_constraint 0) else None)
        false.

(** The bulk insert (call 2) is rejected after one row went in. *)
Definition bulk_insert_fails : env :=
  mkEnv None
        (fun n => if (n =? 2)%nat then Some (mkFault "ORA-02291: parent key not found" 1) else None)
        false.

Definition empty_world : world := mkWorld (mkStorage [] []) 0 [].

(** The handler under the sample runtime. *)
Definition sample_run : env -> value -> world -> reply * world :=
  orders_raw no_text_number sample_object_text.

(** Two lines: the rounding line (sequence number left to the trigger) and a
    line that supplies sequence number 7. *)
Definition two_line_order : value :=
  sample_order [rounding_line; sample_line_seq 7].

(** The same lines under explicit totals: an amount of 999.5 that matches
    nothing, and a null discount. *)
Definition order_with_totals : value :=
  sample_order_totals (VNum 999.5%float) VNull [rounding_line; sample_line_seq 7].

(** A line whose product reference is supplied as 0. *)
Definition zero_product_order : value :=
  sample_order [sample_line 5 1 1 2; sample_line 0 2 4 2].


(** A request without a user reference and with a null line list. *)
Definition headless_order : value :=
  VObj [("ord_id", VNum 123%float); ("pay_stat_id", VNum 2%float); ("lines", VNull)].

Definition after_first : world := snd (sample_run no_faults two_line_order empty_world).

(** ** [toNum] and the reporting endpoints *)

Section Reporting.

Variable StringToNumber : string -> float.
Variable ObjectToString : value -> option string.

Local Abbreviation Number := (Number StringToNumber ObjectToString).

(** [toNum(v, def)]: [Number(v)] when [Number.isFinite] holds of it, else
    [def]; [None] when the conversion throws.  Every call in the file passes
    [def]. *)
Definition toNum (v : value) (def : float) : option float :=
  let? n := Number v in
  Some (if PrimFloat.is_finite n then n else def).

(** The binds of [GET /pbi/order_line_flat]:
    [days = toNum(req.query.days ?? 90, 90)] and
    [limit = toNum(req.query.limit ?? 50000, 50000)]. *)
Definition order_line_flat_binds (query : value) : option (float * float) :=
  let? days := toNum (coalesce (field query "days") (VNum 90%float)) 90%float in
  let? limit :=
    toNum (coalesce (field query "limit") (VNum 50000%float)) 50000%float in
  Some (days, limit).

(** The bind of [GET /pbi/sales_daily]:
    [days = toNum(req.query.days ?? 180, 180)]. *)
Definition sales_daily_binds (query : value) : option float :=
  toNum (coalesce (field query "days") (VNum 180%float)) 180%float.

End Reporting.


(** [{ ...x, k: v }] on the fields of [x]: the value of an existing [k] is
    replaced where it stands, a new [k] goes last. *)
Fixpoint set_field (k : string) (v : value) (fields : list (string * value))
  : list (string * value) :=
  match fields with
  | [] => [(k, v)]
  | (k', v') :: rest =>
      if String.eqb k k' then (k, v) :: rest
      else (k', v') :: set_field k v rest
  end.

Section RowShaping.

(** [new Date(d).toISOString()] for a cell [d] of a DATE column; [None]
    when it throws (RangeError on an invalid date). *)
Variable toISOString : value -> option string.

(** [d ? new Date(d).toISOString() : null] *)
Definition iso_or_null (d : value) : option value :=
  if truthy d then option_map VStr (toISOString d) else Some VNull.

(** [d ? new Date(d).toISOString().slice(0, 10) : null] *)
Definition day_or_null (d : value) : option value :=
  if truthy d then option_map (fun s => VStr (substring 0 10 s)) (toISOString d)
  else Some VNull.

(** The arrow function of [rows.map] in [GET /pbi/order_line_flat], on the
    fields of a row; [None] when a conversion throws. *)
Definition flat_row (x : list (string * value)) : option (list (string * value)) :=
  match iso_or_null (lookup "ORDER_DATE" x) with
  | None => None
  | Some date =>
      match day_or_null (lookup "ORDER_DAY" x) with
      | None => None
      | Some day => Some (set_field "ORDER_DAY" day (set_field "ORDER_DATE" date x))
      end
  end.

(** The arrow function of [rows.map] in [GET /pbi/sales_daily]. *)
Definition daily_row (x : list (string * value)) : option (list (string * value)) :=
  match day_or_null (lookup "ORDER_DAY" x) with
  | None => None
  | Some day => Some (set_field "ORDER_DAY" day x)
  end.

(** [rows.map(f)], stopping at the first row on which [f] throws. *)
Fixpoint map_rows (f : list (string * value) -> option (list (string * value)))
         (rows : list (list (string * value)))
  : option (list (list (string * value))) :=
  match rows with
  | [] => Some []
  | x :: rest =>
      match f x with
      | None => None
      | Some y =>
          match map_rows f rest with
          | None => None
          | Some ys => Some (y :: ys)
          end
      end
  end.

End RowShaping.

(** ** Further vocabulary *)

Definition is_object (v : value) : bool :=
  match v with
  | VObj _ => true
  | _ => false
  end.

(** An array or an object: the values whose conversion to a number goes
    through ToPrimitive and may throw. *)
Definition is_compound (v : value) : bool :=
  match v with
  | VArr _ | VObj _ => true
  | _ => false
  end.

(** A line list the handler goes on with: an array with an entry. *)
Definition lines_usable (v : value) : bool :=
  match v with
  | VArr (_ :: _) => true
  | _ => false
  end.

(** The calls that change data: an insert, a batch insert, a commit. *)
Definition is_write_call (ev : event) : bool :=
  match ev with
  | EvExecute (InsertOrder _) _ | EvExecuteMany _ _ | EvCommit => true
  | _ => false
  end.


(** Every row of ORD_DTL belongs to a row of ORDERS. *)
Definition lines_have_header (s : storage) : Prop :=
  Forall (fun r => has_order (DTL_ORD_ID r) s = true) (ORD_DTL s).

(** Entry [j] is the first [null] or [undefined] entry, and the loop gets
    to it: every entry before it passes the per-line check. *)
Definition first_null_line (ls : list value) (j : nat) : Prop :=
  (exists l, nth_error ls j = Some l /\ is_nullish l = true) /\
  (forall j', j' < j ->
     exists l', nth_error ls j' = Some l' /\ line_rejected l' = Some false).

(** The same environment, with [close] rejecting or not. *)
Definition with_close_fault (e : env) (c : bool) : env :=
  mkEnv (connect_fault e) (call_fault e) c.

Section LineDefaults.

Variable StringToNumber : string -> float.
Variable ObjectToString : value -> option string.

Local Abbreviation Number := (Number StringToNumber ObjectToString).

(** What [calcTotals] reads off a line: its amount and its discount, an
    absent or null quantity, unit price or discount counting as 0; [None]
    when the line is [null] or [undefined] or a conversion throws. *)
Definition line_reads (l : value) : option (float * float) :=
  if is_nullish l then None
  else
    let? q := Number (coalesce (field l "qty") (VNum PrimFloat.zero)) in
    let? u := Number (coalesce (field l "unit_price") (VNum PrimFloat.zero)) in
    let? d := Number (coalesce (field l "discount") (VNum PrimFloat.zero)) in
    Some ((q * u)%float, d).

End LineDefaults.

(** ** Further samples *)

Definition close_fails : env := mkEnv None (fun _ => None) true.

Definition cannot_connect : env :=
  mkEnv (Some "ORA-12541: no listener") (fun _ => None) false.

(** The commit (call 3) is rejected. *)
Definition commit_fails : env :=
  mkEnv None
        (fun n => if (n =? 3)%nat then Some (mkFault "ORA-03113: end-of-file on communication channel" 0) else None)
        false.

(** A query string with [days=7] and an empty [limit]. *)
Definition sample_query : value :=
  VObj [("days", VStr "7"); ("limit", VStr "")].

(** A line list whose second entry is [null]. *)
Definition null_line_order : value :=
  sample_order [sample_line 5 1 1 2; VNull; sample_line 0 2 4 2].

(** A validated request whose quantity is the unconvertible object. *)
Definition unconvertible_qty_order : value :=
  sample_order [VObj [("prd_id", VNum 5%float); ("qty", unconvertible);
                      ("unit_price", VNum 1%float); ("shp_stat_id", VNum 2%float)]].

(** A validated request whose user reference is the unconvertible object. *)
Definition unconvertible_usr_order : value :=
  VObj [("ord_id", VNum 123%float); ("usr_id", unconvertible);
        ("pay_stat_id", VNum 2%float); ("lines", VArr [rounding_line])].

(** A runtime that reads the strings "7" and "" as 7 and 0, and everything
    else as NaN. *)
Definition tiny_text_number (s : string) : float :=
  if String.eqb s "7" then 7%float
  else if String.eqb s "" then 0%float else PrimFloat.nan.

(** A conversion that knows one date. *)
Definition sample_iso (d : value) : option string :=
  match d with
  | VNum _ => Some "2026-02-25T12:00:00.000Z"
  | _ => None
  end.

Definition sample_row : list (string * value) :=
  [("ORD_ID", VNum 123%float); ("ORDER_DATE", VNum 1%float); ("ORDER_DAY", VNull);
   ("QTY", VNum 3%float)].

(** ** Basic facts *)

Lemma field_or_else_empty (b : value) (k : string) :
  field (or_else b (VObj [])) k = field b k.
Proof.
  unfold or_else. destruct (truthy b) eqn:T; [reflexivity|].
  destruct b; simpl in *; try reflexivity; discriminate.
Qed.

Lemma member_field (l : value) (k : string) :
  is_nullish l = false -> member l k = Some (field l k).
Proof. destruct l; simpl; intros H; try reflexivity; discriminate. Qed.

Lemma member_nullish (l : value) (k : string) :
  is_nullish l = true -> member l k = None.
Proof. destruct l; simpl; intros H; try reflexivity; discriminate. Qed.

Lemma line_rejected_nonnull (l : value) :
  is_nullish l = false -> line_rejected l = Some (line_unacceptable l).
Proof.
  intros H. unfold line_rejected, line_unacceptable.
  rewrite !(member_field l) by exact H. reflexivity.
Qed.

Lemma line_rejected_null (l : value) :
  is_nullish l = true -> line_rejected l = None.
Proof.
  intros H. unfold line_rejected. rewrite (member_nullish l "prd_id" H). reflexivity.
Qed.

Lemma line_rejected_some (l : value) (b : bool) :
  line_rejected l = Some b -> is_nullish l = false /\ line_unacceptable l = b.
Proof.
  intros H. destruct (is_nullish l) eqn:N.
  - rewrite (line_rejected_null l N) in H. discriminate.
  - rewrite (line_rejected_nonnull l N) in H. split; congruence.
Qed.

(** ** The validation loop *)

Lemma validate_lines_pass (ls : list value) (n : nat) :
  validate_lines n ls = AllLinesPass <->
  Forall (fun l => line_rejected l = Some false) ls.
Proof.
  revert n. induction ls as [|l ls IH]; intros n; simpl.
  - split; auto.
  - destruct (line_rejected l) as [[|]|] eqn:R.
    + split; [discriminate|]. intros H. inversion H; subst. congruence.
    + rewrite IH. split; intros H.
      * constructor; assumption.
      * inversion H; assumption.
    + split; [discriminate|]. intros H. inversion H; subst. congruence.
Qed.

Lemma validate_lines_offending (ls : list value) (n i : nat) :
  validate_lines n ls = Offending i <->
  exists j, i = n + j /\ first_rejected ls j.
Proof.
  revert n. induction ls as [|l ls IH]; intros n; simpl.
  - split; [discriminate|]. intros (j & _ & (l & Hn & _) & _).
    destruct j; discriminate.
  - destruct (line_rejected l) as [[|]|] eqn:R.
    + split.
      * intros H. injection H as <-. exists 0. split; [lia|].
        split; [exists l; auto|]. intros j' Hj'. lia.
      * intros (j & -> & (l0 & Hn & Hr) & Hbefore).
        destruct j as [|j]; [f_equal; lia|].
        destruct (Hbefore 0 ltac:(lia)) as (l' & Hl' & Hr').
        simpl in Hl'. injection Hl' as <-. congruence.
    + rewrite IH. split.
      * intros (j & -> & (l0 & Hn & Hr) & Hbefore). exists (S j).
        split; [lia|]. split; [exists l0; auto|].
        intros [|j'] Hj'; [exists l; auto|].
        apply (Hbefore j'). lia.
      * intros (j & -> & (l0 & Hn & Hr) & Hbefore).
        destruct j as [|j].
        { simpl in Hn. injection Hn as <-. congruence. }
        exists j. split; [lia|]. split; [exists l0; auto|].
        intros j' Hj'. apply (Hbefore (S j')). lia.
    + split; [discriminate|].
      intros (j & -> & (l0 & Hn & Hr) & Hbefore).
      destruct j as [|j].
      * simpl in Hn. injection Hn as <-. congruence.
      * destruct (Hbefore 0 ltac:(lia)) as (l' & Hl' & Hr').
        simpl in Hl'. injection Hl' as <-. congruence.
Qed.

(** ** [calcTotals] against the rounded binary64 sums *)

Section TotalsFacts.

Variable StringToNumber : string -> float.
Variable ObjectToString : value -> option string.

Local Abbreviation Number := (Number StringToNumber ObjectToString).
Local Abbreviation calcTotals := (calcTotals StringToNumber ObjectToString).
Local Abbreviation calcTotals_loop := (calcTotals_loop StringToNumber ObjectToString).
Local Abbreviation line_amount := (line_amount StringToNumber ObjectToString).
Local Abbreviation line_discount := (line_discount StringToNumber ObjectToString).
Local Abbreviation rounded_sum_amount := (rounded_sum_amount StringToNumber ObjectToString).
Local Abbreviation rounded_sum_discount := (rounded_sum_discount StringToNumber ObjectToString).

Lemma line_passes_inv (l : value) :
  line_rejected l = Some false ->
  is_nullish l = false /\
  is_nullish (field l "qty") = false /\
  is_nullish (field l "unit_price") = false.
Proof.
  intros Hl. destruct (line_rejected_some l false Hl) as [Hnn Hacc].
  unfold line_unacceptable in Hacc.
  apply orb_false_iff in Hacc as [Hacc _].
  apply orb_false_iff in Hacc as [Hacc Hu].
  apply orb_false_iff in Hacc as [_ Hq].
  repeat split; assumption.
Qed.

Lemma calcTotals_loop_sums (ls : list value) (a d : float) :
  Forall (fun l => line_rejected l = Some false) ls ->
  calcTotals_loop ls a d =
  (let? xs := all_some (map line_amount ls) in
   let? ds := all_some (map line_discount ls) in
   Some (fold_left PrimFloat.add xs a, fold_left PrimFloat.add ds d)).
Proof.
  revert a d. induction ls as [|l ls IH]; intros a d H; simpl.
  - reflexivity.
  - inversion H as [|? ? Hl Hls]; subst.
    destruct (line_passes_inv l Hl) as (Hnn & Hq & Hu).
    rewrite !(member_field l) by exact Hnn.
    unfold line_amount, line_discount, coalesce. rewrite Hq, Hu.
    destruct (Number (field l "qty")) as [q|]; [|reflexivity].
    destruct (Number (field l "unit_price")) as [u|]; [|reflexivity].
    assert (Hd : Number (if is_nullish (field l "discount")
                         then VNum PrimFloat.zero else field l "discount") =
                 (if is_nullish (field l "discount") then Some PrimFloat.zero
                  else Number (field l "discount"))).
    { destruct (is_nullish (field l "discount")); reflexivity. }
    rewrite Hd.
    destruct (if is_nullish (field l "discount") then Some PrimFloat.zero
              else Number (field l "discount")) as [disc|].
    + rewrite (IH _ _ Hls).
      destruct (all_some (map _ ls)) as [xs|]; [|reflexivity].
      destruct (all_some (map _ ls)) as [ds|]; reflexivity.
    + destruct (all_some (map _ ls)) as [xs|]; reflexivity.
Qed.

Lemma calcTotals_validated (ls : list value) :
  Forall (fun l => line_rejected l = Some false) ls ->
  calcTotals ls =
  (let? a := rounded_sum_amount ls in
   let? d := rounded_sum_discount ls in
   Some (mkTotals a d)).
Proof.
  intros H. unfold calcTotals. rewrite (calcTotals_loop_sums ls _ _ H).
  unfold rounded_sum_amount, rounded_sum_discount.
  destruct (all_some (map line_amount ls)) as [xs|]; [|reflexivity].
  destruct (all_some (map line_discount ls)) as [ds|]; reflexivity.
Qed.

End TotalsFacts.

(** ** Storage facts *)

Lemma db_number_eqb_refl (a : db_number) : db_number_eqb a a = true.
Proof. unfold db_number_eqb. rewrite !Z.eqb_refl. reflexivity. Qed.

Lemma hits_nonempty {A B : Type} (p : A -> bool) (f : A -> B) (l : list A) :
  (0 <? List.length (map f (filter p l)))%nat = existsb p l.
Proof.
  induction l as [|x l IH]; simpl; [reflexivity|].
  destruct (p x); simpl; [reflexivity|exact IH].
Qed.

Lemma has_order_appended (k : db_number) (s : storage) (r : order_row)
      (rows : list dtl_row) :
  ORD_ID r = k -> has_order k (mkStorage (ORDERS s ++ [r]) rows) = true.
Proof.
  intros <-. unfold has_order. simpl. rewrite existsb_app. simpl.
  rewrite db_number_eqb_refl. apply orb_true_iff. right. reflexivity.
Qed.

Lemma row_of_order_binds_key (b : order_binds) (r : order_row) :
  row_of_order_binds b = Some r -> to_db_number (ob_ord_id b) = Some (ORD_ID r).
Proof.
  unfold row_of_order_binds. intros H.
  destruct (to_db_number (ob_ord_id b)); [|discriminate].
  destruct (to_db_number (ob_total_amount b)); [|discriminate].
  destruct (to_db_number (ob_total_discount b)); [|discriminate].
  destruct (to_db_number (ob_usr_id b)); [|discriminate].
  destruct (to_db_number (ob_pay_stat_id b)); [|discriminate].
  injection H as <-. reflexivity.
Qed.

Lemma insert_lines_orders (binds : list line_binds) (work : storage) :
  ORDERS (snd (insert_lines binds work)) = ORDERS work.
Proof.
  revert work. induction binds as [|b binds IH]; intros work; simpl.
  - reflexivity.
  - destruct (row_of_line_binds b); [|reflexivity]. rewrite IH. reflexivity.
Qed.

Lemma insert_lines_done (binds : list line_binds) (work work' : storage) :
  insert_lines binds work = (None, work') ->
  exists rows, rows_of_binds binds rows /\
               work' = mkStorage (ORDERS work) (ORD_DTL work ++ rows).
Proof.
  revert work. induction binds as [|b binds IH]; intros work H; simpl in H.
  - injection H as <-. exists []. split; [constructor|].
    rewrite app_nil_r. destruct work; reflexivity.
  - destruct (row_of_line_binds b) as [r|] eqn:Hb; [|discriminate].
    destruct (IH _ H) as (rows & Hrows & ->). exists (r :: rows).
    split; [constructor; assumption|]. simpl. rewrite <- app_assoc. reflexivity.
Qed.

Lemma insert_lines_accepts (binds : list line_binds) (rows : list dtl_row)
      (work : storage) :
  rows_of_binds binds rows ->
  insert_lines binds work = (None, mkStorage (ORDERS work) (ORD_DTL work ++ rows)).
Proof.
  intros H. revert work. induction H as [|b r binds rows Hb _ IH]; intros work; simpl.
  - rewrite app_nil_r. destruct work; reflexivity.
  - rewrite Hb, IH. simpl. rewrite <- app_assoc. reflexivity.
Qed.

Lemma rows_of_binds_length (binds : list line_binds) (rows : list dtl_row) :
  rows_of_binds binds rows -> List.length rows = List.length binds.
Proof. intros H. symmetry. exact (Forall2_length H). Qed.

(** ** The connection protocol *)

Lemma run_conn_log {A : Type} (e : env) (p : conn_prog A) (c : conn_state) :
  exists calls,
    cs_log (snd (run_conn e p c)) = cs_log c ++ calls /\
    Forall (fun ev => is_call ev = true) calls.
Proof.
  revert c. induction p as [a|m|s ac k IH|binds ac k IH|k IH]; intros c; simpl.
  - exists []. rewrite app_nil_r. split; [reflexivity|constructor].
  - exists []. rewrite app_nil_r. split; [reflexivity|constructor].
  - destruct (call_fault e (cs_calls c)) as [f|].
    + exists [EvExecute s ac]. split; [reflexivity|repeat constructor].
    + destruct (exec_statement s (cs_work c)) as [[m|r] w'].
      * exists [EvExecute s ac]. split; [reflexivity|repeat constructor].
      * destruct (IH r (auto_commit ac (set_work w' (called (EvExecute s ac) c))))
          as (calls & Hlog & Hcalls).
        exists (EvExecute s ac :: calls). split.
        -- rewrite Hlog. destruct ac; simpl; rewrite <- app_assoc; reflexivity.
        -- constructor; [reflexivity|assumption].
  - destruct (call_fault e (cs_calls c)) as [f|].
    + exists [EvExecuteMany binds ac]. split; [reflexivity|repeat constructor].
    + destruct (insert_lines binds (cs_work c)) as [[m|] w'].
      * exists [EvExecuteMany binds ac]. split; [reflexivity|repeat constructor].
      * destruct (IH (auto_commit ac (set_work w' (called (EvExecuteMany binds ac) c))))
          as (calls & Hlog & Hcalls).
        exists (EvExecuteMany binds ac :: calls). split.
        -- rewrite Hlog. destruct ac; simpl; rewrite <- app_assoc; reflexivity.
        -- constructor; [reflexivity|assumption].
  - destruct (call_fault e (cs_calls c)) as [f|].
    + exists [EvCommit]. split; [reflexivity|repeat constructor].
    + destruct (IH (commit (called EvCommit c))) as (calls & Hlog & Hcalls).
      exists (EvCommit :: calls). split.
      * rewrite Hlog. simpl. rewrite <- app_assoc. reflexivity.
      * constructor; [reflexivity|assumption].
Qed.

Lemma count_events_app (p : event -> bool) (l1 l2 : list event) :
  count_events p (l1 ++ l2) = count_events p l1 + count_events p l2.
Proof. unfold count_events. rewrite filter_app, length_app. reflexivity. Qed.

Lemma count_close_calls (calls : list event) :
  Forall (fun ev => is_call ev = true) calls -> count_events is_close calls = 0.
Proof.
  induction 1 as [|ev calls Hev _ IH]; [reflexivity|].
  unfold count_events in *. simpl.
  destruct ev; simpl in *; try discriminate; exact IH.
Qed.

Lemma withConn_not_acquired {A : Type} (e : env) (fn : conn_prog A) (w : world)
      (m : string) :
  connect_fault e = Some m ->
  withConn e fn w =
  (Threw m, mkWorld (durable w) (open_connections w) (log w ++ [EvGetConnection])).
Proof. intros H. unfold withConn. rewrite H. reflexivity. Qed.

(** C9: once [getConnection] has resolved, whatever the callback does and
    however it ends (value or exception), the request's log is: the
    acquisition, then the callback's calls on the connection, then one
    [close] and nothing after it.  So the connection is acquired before any
    query and [close] is called exactly once; when [close] itself succeeds no
    connection stays open. *)
Theorem withConn_releases_exactly_once {A : Type} (e : env) (fn : conn_prog A)
        (w : world) :
  connect_fault e = None ->
  exists calls,
    log (snd (withConn e fn w)) = log w ++ [EvGetConnection] ++ calls ++ [EvClose] /\
    Forall (fun ev => is_call ev = true) calls /\
    count_events is_close (log (snd (withConn e fn w))) =
      count_events is_close (log w) + 1 /\
    (close_fault e = false ->
     open_connections (snd (withConn e fn w)) = open_connections w).
Proof.
  intros Hc. unfold withConn. rewrite Hc.
  pose (c0 := mkConn (durable w) (durable w) 0 (log w ++ [EvGetConnection])).
  destruct (run_conn_log e fn c0) as (calls & Hlog & Hcalls).
  fold c0. destruct (run_conn e fn c0) as [r c] eqn:Hrun. simpl in *.
  exists calls. rewrite Hlog. simpl. repeat split.
  - rewrite <- !app_assoc. reflexivity.
  - assumption.
  - rewrite !count_events_app, (count_close_calls calls Hcalls).
    unfold count_events. simpl. lia.
  - intros ->. lia.
Qed.

Lemma withConn_releases_exactly_once_witness :
  connect_fault bulk_insert_fails = None /\
  fst (withConn bulk_insert_fails
         (submitted_tx no_text_number sample_object_text two_line_order 8.32 0) empty_world)
    = Threw "ORA-02291: parent key not found" /\
  exists calls,
    log (snd (withConn bulk_insert_fails
                (submitted_tx no_text_number sample_object_text two_line_order 8.32 0)
                empty_world)) =
      log empty_world ++ [EvGetConnection] ++ calls ++ [EvClose] /\
    Forall (fun ev => is_call ev = true) calls /\
    count_events is_close
      (log (snd (withConn bulk_insert_fails
                   (submitted_tx no_text_number sample_object_text two_line_order 8.32 0)
                   empty_world))) =
      count_events is_close (log empty_world) + 1 /\
    (close_fault bulk_insert_fails = false ->
     open_connections
       (snd (withConn bulk_insert_fails
               (submitted_tx no_text_number sample_object_text two_line_order 8.32 0)
               empty_world)) =
     open_connections empty_world).
Proof.
  split; [reflexivity|]. split; [vm_compute; reflexivity|].
  apply (withConn_releases_exactly_once bulk_insert_fails
           (submitted_tx no_text_number sample_object_text two_line_order 8.32 0) empty_world).
  reflexivity.
Defined.

(** ** The order transaction *)

Section TxFacts.

Variable StringToNumber : string -> float.
Variable ObjectToString : value -> option string.

Local Abbreviation Number := (Number StringToNumber ObjectToString).
Local Abbreviation bind_line := (bind_line StringToNumber ObjectToString).
Local Abbreviation bind_lines := (bind_lines StringToNumber ObjectToString).
Local Abbreviation bind_order := (bind_order StringToNumber ObjectToString).
Local Abbreviation order_tx := (order_tx StringToNumber ObjectToString).
Local Abbreviation planned_calls := (planned_calls StringToNumber ObjectToString).

Variables (oid od uid pid : value) (ls : list value) (ta td : float).

Lemma bind_order_fields (header : order_binds) :
  bind_order oid od uid pid ta td = Some header ->
  Number oid = Some (ob_ord_id header) /\
  Number uid = Some (ob_usr_id header) /\
  Number pid = Some (ob_pay_stat_id header) /\
  ob_total_amount header = ta /\
  ob_total_discount header = td /\
  ob_order_date header = (if truthy od then DateOf od else DateNow).
Proof.
  unfold bind_order. intros H.
  destruct (Number oid) as [id|]; [|discriminate].
  destruct (bind_date ObjectToString od) as [date|] eqn:Hdate; [|discriminate].
  destruct (Number uid) as [usr|]; [|discriminate].
  destruct (Number pid) as [pay|]; [|discriminate].
  injection H as <-. simpl. repeat split.
  unfold bind_date in Hdate. destruct (truthy od).
  - destruct od; try (injection Hdate as <-; reflexivity);
      destruct (ObjectToString _); try discriminate;
      injection Hdate as <-; reflexivity.
  - injection Hdate as <-. reflexivity.
Qed.

Lemma order_tx_committed (e : env) (w w' : world) :
  withConn e (order_tx oid od uid pid ls ta td) w = (Returned false, w') ->
  connect_fault e = None /\
  (forall n, n < 4 -> call_fault e n = None) /\
  exists id header binds hdr rows,
    Number oid = Some id /\
    bind_order oid od uid pid ta td = Some header /\
    bind_lines oid ls = Some binds /\
    row_of_order_binds header = Some hdr /\
    has_order (ORD_ID hdr) (durable w) = false /\
    rows_of_binds binds rows /\
    durable w' = mkStorage (ORDERS (durable w) ++ [hdr]) (ORD_DTL (durable w) ++ rows) /\
    log w' = log w ++ [EvGetConnection] ++ tx_calls id header binds ++ [EvClose].
Proof.
  unfold withConn, order_tx. intros H.
  destruct (connect_fault e) eqn:Hc; [discriminate|].
  destruct (Number oid) as [id|] eqn:Hid; [|discriminate].
  simpl in H.
  destruct (call_fault e 0) eqn:F0; [discriminate|].
  destruct (to_db_number id) as [k|] eqn:Hk; [|discriminate].
  simpl in H. rewrite hits_nonempty in H.
  destruct (existsb _ (ORDERS (durable w))) eqn:Hex; [discriminate|].
  destruct (bind_order oid od uid pid ta td) as [header|] eqn:Hb; [|discriminate].
  simpl in H.
  destruct (call_fault e 1) eqn:F1; [discriminate|].
  destruct (row_of_order_binds header) as [hdr|] eqn:Hh; [|discriminate].
  pose proof (row_of_order_binds_key _ _ Hh) as Hkey.
  destruct (bind_order_fields header Hb) as (Hid' & _).
  assert (ob_ord_id header = id) as Hobid by congruence.
  rewrite Hobid, Hk in Hkey. injection Hkey as ->.
  unfold has_order in H. simpl in H. rewrite Hex in H.
  destruct (bind_lines oid ls) as [binds|] eqn:Hbs; [|discriminate].
  simpl in H.
  destruct (call_fault e 2) eqn:F2; [discriminate|].
  destruct (insert_lines _ _) as [[m|] w2] eqn:Hins; [discriminate|].
  simpl in H.
  destruct (call_fault e 3) eqn:F3; [discriminate|].
  simpl in H. injection H as <-.
  destruct (insert_lines_done _ _ _ Hins) as (rows & Hrows & ->). simpl.
  split; [reflexivity|]. split.
  - intros n Hn. destruct n as [|[|[|[|n]]]]; try assumption. lia.
  - exists id, header, binds, hdr, rows. repeat split; try assumption.
    unfold tx_calls. rewrite <- !app_assoc. reflexivity.
Qed.

Lemma order_tx_aborted (e : env) (w w' : world) (r : outcome bool) :
  withConn e (order_tx oid od uid pid ls ta td) w = (r, w') ->
  r <> Returned false ->
  durable w' = durable w.
Proof.
  unfold withConn, order_tx. intros H Hr.
  destruct (connect_fault e) eqn:Hc; [injection H as <- <-; reflexivity|].
  destruct (Number oid) as [id|] eqn:Hid; [|injection H as <- <-; reflexivity].
  simpl in H.
  destruct (call_fault e 0) eqn:F0; [injection H as <- <-; reflexivity|].
  destruct (to_db_number id) as [k|] eqn:Hk;
    [|injection H as <- <-; reflexivity].
  simpl in H.
  destruct (0 <? _)%nat; [injection H as <- <-; reflexivity|].
  destruct (bind_order oid od uid pid ta td) as [header|] eqn:Hb;
    [|injection H as <- <-; reflexivity].
  simpl in H.
  destruct (call_fault e 1) eqn:F1; [injection H as <- <-; reflexivity|].
  destruct (row_of_order_binds header) as [hdr|] eqn:Hh;
    [|injection H as <- <-; reflexivity].
  destruct (has_order _ _); [injection H as <- <-; reflexivity|].
  destruct (bind_lines oid ls) as [binds|] eqn:Hbs;
    [|injection H as <- <-; reflexivity].
  simpl in H.
  destruct (call_fault e 2) eqn:F2; [injection H as <- <-; reflexivity|].
  destruct (insert_lines _ _) as [[m|] w2] eqn:Hins;
    [injection H as <- <-; reflexivity|].
  simpl in H.
  destruct (call_fault e 3) eqn:F3; [injection H as <- <-; reflexivity|].
  simpl in H. injection H as <- <-. congruence.
Qed.

Lemma order_tx_conflict (e : env) (w : world) (id : float) (k : db_number) :
  connect_fault e = None ->
  call_fault e 0 = None ->
  Number oid = Some id ->
  to_db_number id = Some k ->
  has_order k (durable w) = true ->
  withConn e (order_tx oid od uid pid ls ta td) w =
  (Returned true,
   mkWorld (durable w) (open_connections w + (if close_fault e then 1 else 0))
           (log w ++ [EvGetConnection; EvExecute (SelectOrder id) false; EvClose])).
Proof.
  intros Hc F0 Hid Hk Hex. unfold withConn, order_tx. rewrite Hc, Hid. simpl.
  rewrite F0, Hk. simpl. rewrite hits_nonempty.
  unfold has_order in Hex. rewrite Hex. simpl.
  rewrite <- !app_assoc. reflexivity.
Qed.

Lemma order_tx_conflict_inv (e : env) (w w' : world) :
  withConn e (order_tx oid od uid pid ls ta td) w = (Returned true, w') ->
  exists id k, Number oid = Some id /\ to_db_number id = Some k /\
               has_order k (durable w) = true.
Proof.
  unfold withConn, order_tx. intros H.
  destruct (connect_fault e) eqn:Hc; [discriminate|].
  destruct (Number oid) as [id|] eqn:Hid; [|discriminate].
  simpl in H.
  destruct (call_fault e 0) eqn:F0; [discriminate|].
  destruct (to_db_number id) as [k|] eqn:Hk; [|discriminate].
  simpl in H. rewrite hits_nonempty in H.
  destruct (existsb _ (ORDERS (durable w))) eqn:Hex.
  - exists id, k. repeat split; [exact Hk|exact Hex].
  - destruct (bind_order oid od uid pid ta td) as [header|] eqn:Hb; [|discriminate].
    simpl in H.
    destruct (call_fault e 1) eqn:F1; [discriminate|].
    destruct (row_of_order_binds header) as [hdr|] eqn:Hh; [|discriminate].
    destruct (has_order _ _); [discriminate|].
    destruct (bind_lines oid ls) as [binds|] eqn:Hbs; [|discriminate].
    simpl in H.
    destruct (call_fault e 2) eqn:F2; [discriminate|].
    destruct (insert_lines _ _) as [[m|] w2] eqn:Hins; [discriminate|].
    simpl in H.
    destruct (call_fault e 3) eqn:F3; discriminate.
Qed.

Lemma order_tx_succeeds (e : env) (w : world) (id : float) (header : order_binds)
      (binds : list line_binds) (hdr : order_row) (rows : list dtl_row) :
  connect_fault e = None ->
  (forall n, n < 4 -> call_fault e n = None) ->
  Number oid = Some id ->
  bind_order oid od uid pid ta td = Some header ->
  bind_lines oid ls = Some binds ->
  row_of_order_binds header = Some hdr ->
  has_order (ORD_ID hdr) (durable w) = false ->
  rows_of_binds binds rows ->
  withConn e (order_tx oid od uid pid ls ta td) w =
  (Returned false,
   mkWorld (mkStorage (ORDERS (durable w) ++ [hdr]) (ORD_DTL (durable w) ++ rows))
           (open_connections w + (if close_fault e then 1 else 0))
           (log w ++ [EvGetConnection] ++ tx_calls id header binds ++ [EvClose])).
Proof.
  intros Hc Hf Hid Hb Hbs Hh Hfresh Hrows. unfold withConn, order_tx.
  rewrite Hc, Hid. simpl.
  rewrite (Hf 0) by lia.
  pose proof (row_of_order_binds_key _ _ Hh) as Hkey.
  destruct (bind_order_fields header Hb) as (Hid' & _).
  assert (ob_ord_id header = id) as Hobid by congruence.
  rewrite Hobid in Hkey. rewrite Hkey. simpl. rewrite hits_nonempty.
  unfold has_order in Hfresh. rewrite Hfresh. rewrite Hb. simpl.
  rewrite (Hf 1) by lia. rewrite Hh.
  unfold has_order. simpl. rewrite Hfresh. rewrite Hbs. simpl.
  rewrite (Hf 2) by lia.
  rewrite (insert_lines_accepts _ rows _ Hrows). simpl.
  rewrite (Hf 3) by lia. simpl.
  unfold tx_calls. rewrite <- !app_assoc. reflexivity.
Qed.

Lemma order_tx_insert_rejected (e : env) (w : world) (id : float) (k : db_number)
      (header : order_binds) (f : fault) :
  connect_fault e = None ->
  call_fault e 0 = None ->
  Number oid = Some id ->
  to_db_number id = Some k ->
  has_order k (durable w) = false ->
  bind_order oid od uid pid ta td = Some header ->
  call_fault e 1 = Some f ->
  fst (withConn e (order_tx oid od uid pid ls ta td) w) = Threw (fault_message f).
Proof.
  intros Hc F0 Hid Hk Hfresh Hb F1. unfold withConn, order_tx.
  rewrite Hc, Hid. simpl.
  rewrite F0, Hk. simpl. rewrite hits_nonempty.
  unfold has_order in Hfresh. rewrite Hfresh, Hb. simpl.
  rewrite F1. reflexivity.
Qed.

(** Whatever happens, the request's calls are a prefix of: the acquisition,
    then the calls of the transaction in order, as far as the conversions of
    their arguments let it get; [close] follows when the connection was
    acquired. *)
Lemma order_tx_log (e : env) (w : world) :
  exists n,
    log (snd (withConn e (order_tx oid od uid pid ls ta td) w)) =
    log w ++ firstn n (EvGetConnection :: planned_calls oid od uid pid ls ta td)
          ++ match connect_fault e with
             | None => [EvClose]
             | Some _ => []
             end.
Proof.
  unfold withConn, order_tx, planned_calls.
  destruct (connect_fault e) eqn:Hc.
  { exists 1. simpl. reflexivity. }
  destruct (Number oid) as [id|] eqn:Hid.
  2:{ exists 1. simpl. rewrite <- ?app_assoc. reflexivity. }
  simpl.
  destruct (call_fault e 0) eqn:F0.
  { exists 2. simpl. rewrite <- ?app_assoc. reflexivity. }
  destruct (to_db_number _) as [k|] eqn:Hk.
  2:{ exists 2. simpl. rewrite <- ?app_assoc. reflexivity. }
  simpl.
  destruct (0 <? _)%nat.
  { exists 2. simpl. rewrite <- ?app_assoc. reflexivity. }
  destruct (bind_order oid od uid pid ta td) as [header|] eqn:Hb.
  2:{ exists 2. simpl. rewrite <- ?app_assoc. reflexivity. }
  simpl.
  destruct (call_fault e 1) eqn:F1.
  { exists 3. simpl. rewrite <- ?app_assoc. reflexivity. }
  destruct (row_of_order_binds _) as [hdr|] eqn:Hh.
  2:{ exists 3. simpl. rewrite <- ?app_assoc. reflexivity. }
  destruct (has_order _ _).
  { exists 3. simpl. rewrite <- ?app_assoc. reflexivity. }
  destruct (bind_lines oid ls) as [binds|] eqn:Hbs.
  2:{ exists 3. simpl. rewrite <- ?app_assoc. reflexivity. }
  simpl.
  destruct (call_fault e 2) eqn:F2.
  { exists 4. simpl. rewrite <- ?app_assoc. reflexivity. }
  destruct (insert_lines _ _) as [[m|] w2] eqn:Hins.
  { exists 4. simpl. rewrite <- ?app_assoc. reflexivity. }
  simpl.
  destruct (call_fault e 3) eqn:F3.
  { exists 5. simpl. rewrite <- ?app_assoc. reflexivity. }
  exists 5. simpl. rewrite <- ?app_assoc. reflexivity.
Qed.

End TxFacts.

(** ** The handler on a request that reaches the transaction *)

Section HandlerFacts.

Variable StringToNumber : string -> float.
Variable ObjectToString : value -> option string.

Local Abbreviation Number := (Number StringToNumber ObjectToString).
Local Abbreviation calcTotals := (calcTotals StringToNumber ObjectToString).
Local Abbreviation bind_line := (bind_line StringToNumber ObjectToString).
Local Abbreviation bind_lines := (bind_lines StringToNumber ObjectToString).
Local Abbreviation bind_order := (bind_order StringToNumber ObjectToString).
Local Abbreviation order_tx := (order_tx StringToNumber ObjectToString).
Local Abbreviation resolve_total := (resolve_total StringToNumber ObjectToString).
Local Abbreviation respond := (respond StringToNumber ObjectToString).
Local Abbreviation orders_raw := (orders_raw StringToNumber ObjectToString).
Local Abbreviation resolved_totals := (resolved_totals StringToNumber ObjectToString).
Local Abbreviation submitted_tx := (submitted_tx StringToNumber ObjectToString).

Lemma passes_validation_inv (b : value) :
  passes_validation b = true ->
  header_rejected (field b "ord_id") (field b "usr_id")
                  (field b "pay_stat_id") (field b "lines") = false /\
  Forall (fun l => line_rejected l = Some false) (items (field b "lines")).
Proof.
  unfold passes_validation. intros H. apply andb_true_iff in H as [H1 H2].
  apply negb_true_iff in H1. split; [exact H1|].
  apply (validate_lines_pass _ 0).
  destruct (validate_lines 0 (items (field b "lines"))); [reflexivity|discriminate..].
Qed.

Lemma resolved_totals_inv (b : value) (ta td : float) :
  resolved_totals b = Some (ta, td) ->
  passes_validation b = true /\
  exists computed,
    calcTotals (items (field b "lines")) = Some computed /\
    resolve_total (field b "total_amount") (totalAmount computed) = Some ta /\
    resolve_total (field b "total_discount") (totalDiscount computed) = Some td.
Proof.
  unfold resolved_totals. intros H.
  destruct (passes_validation b); [|discriminate]. split; [reflexivity|].
  destruct (calcTotals _) as [c|]; [|discriminate]. exists c.
  destruct (resolve_total (field b "total_amount") _) as [a|]; [|discriminate].
  destruct (resolve_total (field b "total_discount") _) as [d|]; [|discriminate].
  injection H as <- <-. repeat split.
Qed.

Lemma orders_raw_validated (e : env) (b : value) (w : world) (ta td : float) :
  resolved_totals b = Some (ta, td) ->
  orders_raw e b w =
  respond (field b "ord_id") ta td (withConn e (submitted_tx b ta td) w).
Proof.
  intros H. destruct (resolved_totals_inv b ta td H) as (Hv & c & Hc & Hta & Htd).
  destruct (passes_validation_inv b Hv) as [Hh Hl].
  unfold orders_raw. cbv zeta. rewrite !field_or_else_empty. rewrite Hh.
  rewrite (proj2 (validate_lines_pass _ 0) Hl).
  rewrite Hc, Hta, Htd. reflexivity.
Qed.

Lemma orders_raw_not_reaching (e : env) (b : value) (w : world) :
  resolved_totals b = None ->
  snd (orders_raw e b w) = w /\ is_success (fst (orders_raw e b w)) = false.
Proof.
  unfold resolved_totals, passes_validation, orders_raw. cbv zeta.
  rewrite !field_or_else_empty. intros H.
  destruct (header_rejected _ _ _ _); [split; reflexivity|].
  simpl in H.
  destruct (validate_lines 0 (items (field b "lines")));
    [|split; reflexivity..].
  destruct (calcTotals _) as [c|]; [|split; reflexivity].
  destruct (resolve_total (field b "total_amount") _) as [a|];
    [|split; reflexivity].
  destruct (resolve_total (field b "total_discount") _) as [d|];
    [discriminate|split; reflexivity].
Qed.

Lemma respond_success (oid : value) (ta td : float) (r : outcome bool) (w' : world) :
  is_success (fst (respond oid ta td (r, w'))) = true ->
  r = Returned false /\
  exists id, Number oid = Some id /\
             fst (respond oid ta td (r, w')) =
             Responded (mkResponse 200 (OkBody id ta td)).
Proof.
  unfold respond. destruct r as [[|]|m]; simpl; try discriminate.
  destruct (Number oid) as [id|]; simpl; [|discriminate].
  intros _. split; [reflexivity|]. exists id. split; reflexivity.
Qed.

Lemma respond_world (oid : value) (ta td : float) (r : outcome bool) (w' : world) :
  snd (respond oid ta td (r, w')) = w'.
Proof.
  unfold respond. destruct r as [[|]|m]; try reflexivity.
  destruct (Number oid); reflexivity.
Qed.

Lemma bind_lines_forall2 (oid : value) (ls : list value) (binds : list line_binds) :
  bind_lines oid ls = Some binds ->
  Forall2 (fun l bd => bind_line oid l = Some bd) ls binds.
Proof.
  revert binds. induction ls as [|l ls IH]; intros binds H; simpl in H.
  - injection H as <-. constructor.
  - destruct (bind_line oid l) as [bd|] eqn:Hl; [|discriminate].
    destruct (bind_lines oid ls) as [bs|]; [|discriminate].
    injection H as <-. constructor; [exact Hl|apply IH; reflexivity].
Qed.

End HandlerFacts.

(** ** Properties of the order intake handler *)

Section Claims.

Variable StringToNumber : string -> float.
Variable ObjectToString : value -> option string.

Local Abbreviation Number := (Number StringToNumber ObjectToString).
Local Abbreviation calcTotals := (calcTotals StringToNumber ObjectToString).
Local Abbreviation bind_line := (bind_line StringToNumber ObjectToString).
Local Abbreviation resolve_total := (resolve_total StringToNumber ObjectToString).
Local Abbreviation orders_raw := (orders_raw StringToNumber ObjectToString).
Local Abbreviation resolved_totals := (resolved_totals StringToNumber ObjectToString).
Local Abbreviation submitted_tx := (submitted_tx StringToNumber ObjectToString).
Local Abbreviation submitted_header := (submitted_header StringToNumber ObjectToString).
Local Abbreviation submitted_lines := (submitted_lines StringToNumber ObjectToString).
Local Abbreviation rounded_sum_amount := (rounded_sum_amount StringToNumber ObjectToString).
Local Abbreviation rounded_sum_discount := (rounded_sum_discount StringToNumber ObjectToString).
Local Abbreviation passed_seq := (passed_seq StringToNumber ObjectToString).
Local Abbreviation new_events := (new_events StringToNumber ObjectToString).

(** A request that reaches the transaction succeeds when nothing is
    rejected: no fault of the environment, convertible and finite binds, a
    fresh key. *)
Lemma orders_raw_succeeds (e : env) (b : value) (w : world) (ta td id : float)
      (header : order_binds) (binds : list line_binds) (hdr : order_row)
      (rows : list dtl_row) :
  resolved_totals b = Some (ta, td) ->
  connect_fault e = None ->
  (forall n, n < 4 -> call_fault e n = None) ->
  Number (field b "ord_id") = Some id ->
  submitted_header b ta td = Some header ->
  submitted_lines b = Some binds ->
  row_of_order_binds header = Some hdr ->
  has_order (ORD_ID hdr) (durable w) = false ->
  rows_of_binds binds rows ->
  fst (orders_raw e b w) = Responded (mkResponse 200 (OkBody id ta td)) /\
  durable (snd (orders_raw e b w)) =
    mkStorage (ORDERS (durable w) ++ [hdr]) (ORD_DTL (durable w) ++ rows).
Proof.
  intros Hr Hc Hf Hid Hb Hbs Hh Hfresh Hrows.
  rewrite (orders_raw_validated StringToNumber ObjectToString e b w ta td Hr).
  unfold submitted_tx.
  rewrite (order_tx_succeeds StringToNumber ObjectToString
             _ _ _ _ _ _ _ e w id header binds hdr rows
             Hc Hf Hid Hb Hbs Hh Hfresh Hrows).
  unfold respond. rewrite Hid. split; reflexivity.
Qed.

Lemma orders_raw_success_inv (e : env) (b : value) (w : world) :
  is_success (fst (orders_raw e b w)) = true ->
  connect_fault e = None /\
  (forall n, n < 4 -> call_fault e n = None) /\
  exists ta td id header binds hdr rows,
    resolved_totals b = Some (ta, td) /\
    fst (orders_raw e b w) = Responded (mkResponse 200 (OkBody id ta td)) /\
    Number (field b "ord_id") = Some id /\
    submitted_header b ta td = Some header /\
    submitted_lines b = Some binds /\
    row_of_order_binds header = Some hdr /\
    has_order (ORD_ID hdr) (durable w) = false /\
    rows_of_binds binds rows /\
    durable (snd (orders_raw e b w)) =
      mkStorage (ORDERS (durable w) ++ [hdr]) (ORD_DTL (durable w) ++ rows) /\
    log (snd (orders_raw e b w)) =
      log w ++ [EvGetConnection] ++ tx_calls id header binds ++ [EvClose].
Proof.
  destruct (resolved_totals b) as [[ta td]|] eqn:Hr.
  - rewrite (orders_raw_validated StringToNumber ObjectToString e b w ta td Hr).
    destruct (withConn e (submitted_tx b ta td) w) as [r w'] eqn:Hrun.
    rewrite respond_world. intros Hs.
    apply respond_success in Hs. destruct Hs as (-> & id & Hid & Hresp).
    destruct (order_tx_committed StringToNumber ObjectToString
                _ _ _ _ _ _ _ e w w' Hrun)
      as (Hc & Hf & id' & header & binds & hdr & rows & Hid' & Hb & Hbs & Hh
          & Hfresh & Hrows & Hd & Hlog).
    assert (id' = id) as -> by congruence.
    split; [exact Hc|]. split; [exact Hf|].
    exists ta, td, id, header, binds, hdr, rows. repeat split; assumption.
  - destruct (orders_raw_not_reaching StringToNumber ObjectToString e b w Hr)
      as [_ Hs].
    intros Hs'. rewrite Hs in Hs'. discriminate.
Qed.

Lemma orders_raw_failure_keeps (e : env) (b : value) (w : world) :
  is_success (fst (orders_raw e b w)) = false ->
  durable (snd (orders_raw e b w)) = durable w.
Proof.
  destruct (resolved_totals b) as [[ta td]|] eqn:Hr.
  - rewrite (orders_raw_validated StringToNumber ObjectToString e b w ta td Hr).
    destruct (withConn e (submitted_tx b ta td) w) as [r w'] eqn:Hrun.
    rewrite respond_world. intros Hs.
    apply (order_tx_aborted StringToNumber ObjectToString
             _ _ _ _ _ _ _ e w w' r Hrun).
    intros ->.
    destruct (order_tx_committed StringToNumber ObjectToString
                _ _ _ _ _ _ _ e w w' Hrun)
      as (_ & _ & id & _ & _ & _ & _ & Hid & _).
    unfold respond in Hs. rewrite Hid in Hs. discriminate.
  - destruct (orders_raw_not_reaching StringToNumber ObjectToString e b w Hr)
      as [Hw _].
    intros _. rewrite Hw. reflexivity.
Qed.

Lemma new_events_of_log (e : env) (b : value) (w : world) (evs : list event) :
  log (snd (orders_raw e b w)) = log w ++ evs -> new_events e b w = evs.
Proof.
  intros H. unfold new_events. rewrite H.
  rewrite skipn_app, skipn_all, Nat.sub_diag. reflexivity.
Qed.

Lemma bind_lines_length (oid : value) (ls : list value) (binds : list line_binds) :
  bind_lines StringToNumber ObjectToString oid ls = Some binds ->
  List.length binds = List.length ls.
Proof.
  intros H. symmetry.
  exact (Forall2_length (bind_lines_forall2 StringToNumber ObjectToString _ _ _ H)).
Qed.

(** C1: order creation is atomic.  A request answered with success went
    through validation and through all four calls of the transaction
    (pre-check, header insert, bulk line insert, and only then the commit)
    with none rejected, neither insert committing on its own, and storage
    then holds exactly one more header row and one more line row per
    submitted line.  A request answered with anything else (a validation
    failure, a conflict, a rejected connection, a rejection at either insert
    or at the commit, an exception) leaves storage as it was. *)
Theorem order_creation_atomic (e : env) (b : value) (w : world) :
  (is_success (fst (orders_raw e b w)) = true ->
   passes_validation b = true /\
   connect_fault e = None /\
   (forall n, n < 4 -> call_fault e n = None) /\
   exists ta td id header binds hdr rows,
     resolved_totals b = Some (ta, td) /\
     Number (field b "ord_id") = Some id /\
     submitted_header b ta td = Some header /\
     submitted_lines b = Some binds /\
     row_of_order_binds header = Some hdr /\
     rows_of_binds binds rows /\
     List.length rows = List.length (items (field b "lines")) /\
     durable (snd (orders_raw e b w)) =
       mkStorage (ORDERS (durable w) ++ [hdr]) (ORD_DTL (durable w) ++ rows) /\
     new_events e b w =
       [EvGetConnection;
        EvExecute (SelectOrder id) false;
        EvExecute (InsertOrder header) false;
        EvExecuteMany binds false;
        EvCommit;
        EvClose]) /\
  (is_success (fst (orders_raw e b w)) = false ->
   durable (snd (orders_raw e b w)) = durable w).
Proof.
  split; [|apply orders_raw_failure_keeps].
  intros Hs.
  destruct (orders_raw_success_inv e b w Hs)
    as (Hc & Hf & ta & td & id & header & binds & hdr & rows & Hr & _ & Hid & Hb
        & Hbs & Hh & _ & Hrows & Hd & Hlog).
  destruct (resolved_totals_inv StringToNumber ObjectToString b ta td Hr) as (Hv & _).
  repeat split; try assumption.
  exists ta, td, id, header, binds, hdr, rows. repeat split; try assumption.
  - rewrite (rows_of_binds_length _ _ Hrows).
    exact (bind_lines_length _ _ _ Hbs).
  - exact (new_events_of_log e b w _ Hlog).
Qed.

(** C2: a request that reaches the pre-check and whose key the pre-check
    finds in storage is answered 409 with the offending key and writes
    nothing.  A first submission of a fresh key, with nothing rejected,
    succeeds; and after a successful submission, submitting the same request
    again is answered 409 and leaves both tables as the first submission
    left them. *)
Theorem duplicate_key_conflict (b : value) (ta td : float) :
  resolved_totals b = Some (ta, td) ->
  (forall e w id k,
     connect_fault e = None ->
     call_fault e 0 = None ->
     Number (field b "ord_id") = Some id ->
     to_db_number id = Some k ->
     has_order k (durable w) = true ->
     fst (orders_raw e b w) =
       Responded (mkResponse 409 (ErrBody (MsgExists (field b "ord_id")))) /\
     durable (snd (orders_raw e b w)) = durable w) /\
  (forall e w id header binds hdr rows,
     connect_fault e = None ->
     (forall n, n < 4 -> call_fault e n = None) ->
     Number (field b "ord_id") = Some id ->
     submitted_header b ta td = Some header ->
     submitted_lines b = Some binds ->
     row_of_order_binds header = Some hdr ->
     has_order (ORD_ID hdr) (durable w) = false ->
     rows_of_binds binds rows ->
     is_success (fst (orders_raw e b w)) = true) /\
  (forall e1 e2 w,
     is_success (fst (orders_raw e1 b w)) = true ->
     connect_fault e2 = None ->
     call_fault e2 0 = None ->
     fst (orders_raw e2 b (snd (orders_raw e1 b w))) =
       Responded (mkResponse 409 (ErrBody (MsgExists (field b "ord_id")))) /\
     durable (snd (orders_raw e2 b (snd (orders_raw e1 b w)))) =
       durable (snd (orders_raw e1 b w))).
Proof.
  intros Hr.
  assert (Hhit : forall e w id k,
     connect_fault e = None -> call_fault e 0 = None ->
     Number (field b "ord_id") = Some id ->
     to_db_number id = Some k ->
     has_order k (durable w) = true ->
     fst (orders_raw e b w) =
       Responded (mkResponse 409 (ErrBody (MsgExists (field b "ord_id")))) /\
     durable (snd (orders_raw e b w)) = durable w).
  { intros e w id k Hc F0 Hid Hk Hex.
    rewrite (orders_raw_validated StringToNumber ObjectToString e b w ta td Hr).
    unfold submitted_tx.
    rewrite (order_tx_conflict StringToNumber ObjectToString
               _ _ _ _ _ _ _ e w id k Hc F0 Hid Hk Hex).
    split; reflexivity. }
  split; [exact Hhit|]. split.
  - intros e w id header binds hdr rows Hc Hf Hid Hb Hbs Hh Hfresh Hrows.
    destruct (orders_raw_succeeds e b w ta td id header binds hdr rows
                Hr Hc Hf Hid Hb Hbs Hh Hfresh Hrows) as [-> _].
    reflexivity.
  - intros e1 e2 w Hs Hc F0.
    destruct (orders_raw_success_inv e1 b w Hs)
      as (_ & _ & ta' & td' & id & header & binds & hdr & rows & _ & _ & Hid & Hb
          & _ & Hh & _ & _ & Hd & _).
    apply (Hhit e2 _ id (ORD_ID hdr) Hc F0 Hid).
    + pose proof (row_of_order_binds_key _ _ Hh) as Hkey.
      destruct (bind_order_fields StringToNumber ObjectToString
                  _ _ _ _ _ _ header Hb) as (Hid' & _).
      congruence.
    + rewrite Hd. apply has_order_appended. reflexivity.
Qed.

Lemma orders_raw_ok_body (e : env) (b : value) (w : world) (id ta td : float) :
  fst (orders_raw e b w) = Responded (mkResponse 200 (OkBody id ta td)) ->
  resolved_totals b = Some (ta, td) /\
  Number (field b "ord_id") = Some id.
Proof.
  intros H.
  assert (Hs : is_success (fst (orders_raw e b w)) = true) by (rewrite H; reflexivity).
  destruct (orders_raw_success_inv e b w Hs)
    as (_ & _ & ta' & td' & id' & header & binds & hdr & rows & Hr & Hresp & Hid & _).
  rewrite Hresp in H. injection H as -> -> ->. split; assumption.
Qed.

Lemma resolve_total_cases (supplied : value) (computed t : float) :
  resolve_total supplied computed = Some t ->
  (is_nullish supplied = false -> Number supplied = Some t) /\
  (is_nullish supplied = true -> computed = t).
Proof.
  unfold resolve_total. destruct (is_nullish supplied); simpl; intros H.
  - split; [discriminate|]. intros _. congruence.
  - split; [intros _; exact H|discriminate].
Qed.

Lemma resolved_totals_computed (b : value) (ta td : float) :
  resolved_totals b = Some (ta, td) ->
  exists a d,
    rounded_sum_amount (items (field b "lines")) = Some a /\
    rounded_sum_discount (items (field b "lines")) = Some d /\
    resolve_total (field b "total_amount") a = Some ta /\
    resolve_total (field b "total_discount") d = Some td.
Proof.
  intros Hr.
  destruct (resolved_totals_inv StringToNumber ObjectToString b ta td Hr)
    as (Hv & c & Hc & Hta & Htd).
  destruct (passes_validation_inv b Hv) as [_ Hl].
  rewrite (calcTotals_validated StringToNumber ObjectToString _ Hl) in Hc.
  destruct (rounded_sum_amount _) as [a|]; [|discriminate].
  destruct (rounded_sum_discount _) as [d|]; [|discriminate].
  injection Hc as <-. simpl in Hta, Htd.
  exists a, d. repeat split; assumption.
Qed.

Lemma half_up_spec (num den : Z) :
  (0 < den)%Z ->
  (2 * den * half_up num den <= 2 * num + den < 2 * den * (half_up num den + 1))%Z.
Proof.
  intros Hden. unfold half_up.
  pose proof (Z.div_mod (2 * num + den) (2 * den) ltac:(lia)) as Hdm.
  pose proof (Z.mod_pos_bound (2 * num + den) (2 * den) ltac:(lia)) as Hb.
  lia.
Qed.

(** C3, as the code has it: when a validated request supplies neither
    total, [calcTotals] returns, and every success response carries,
    [Math.round(S * 100) / 100] evaluated in binary64, where [S] is the
    binary64 sum, in line order from 0, of quantity times unit price, and
    likewise for the discounts (a missing discount counting as 0).  The
    rounding is applied once to each sum, not per line; [Math.round] takes
    the nearest integer, a half going up (2.5 to 3, -2.5 to -2, 2.4 to 2,
    -2.6 to -3).  With
    nothing rejected such a request does succeed.  Quantity 3 at unit price
    0.105 contributes 0.315 and comes out as 0.32; two such lines come out as
    0.63, where rounding each line first would give 0.64.  The sum and its
    product by 100 being rounded to binary64 first, a sum next to half a
    hundredth goes either way: 1.005 comes out as 1 and 1.105 as 1.11. *)
Theorem totals_are_rounded_sums (b : value) :
  passes_validation b = true ->
  is_nullish (field b "total_amount") = true ->
  is_nullish (field b "total_discount") = true ->
  calcTotals (items (field b "lines")) =
    (let? a := rounded_sum_amount (items (field b "lines")) in
     let? d := rounded_sum_discount (items (field b "lines")) in
     Some (mkTotals a d)) /\
  (forall e w id ta td,
     fst (orders_raw e b w) = Responded (mkResponse 200 (OkBody id ta td)) ->
     rounded_sum_amount (items (field b "lines")) = Some ta /\
     rounded_sum_discount (items (field b "lines")) = Some td) /\
  (forall e w a d id header binds hdr rows,
     rounded_sum_amount (items (field b "lines")) = Some a ->
     rounded_sum_discount (items (field b "lines")) = Some d ->
     connect_fault e = None ->
     (forall n, n < 4 -> call_fault e n = None) ->
     Number (field b "ord_id") = Some id ->
     submitted_header b a d = Some header ->
     submitted_lines b = Some binds ->
     row_of_order_binds header = Some hdr ->
     has_order (ORD_ID hdr) (durable w) = false ->
     rows_of_binds binds rows ->
     fst (orders_raw e b w) = Responded (mkResponse 200 (OkBody id a d))) /\
  (forall num den, (0 < den)%Z ->
     (2 * den * half_up num den <= 2 * num + den
      < 2 * den * (half_up num den + 1))%Z) /\
  (Math_round 2.5 = 3%float /\ Math_round (-2.5) = (-2)%float /\
   Math_round 2.4 = 2%float /\ Math_round (-2.6) = (-3)%float) /\
  line_amount StringToNumber ObjectToString rounding_line = Some 0.315%float /\
  rounded_sum_amount [rounding_line] = Some 0.32%float /\
  rounded_sum_amount [rounding_line; rounding_line] = Some 0.63%float /\
  per_line_rounded_amount StringToNumber ObjectToString
    [rounding_line; rounding_line] = Some 0.64%float /\
  rounded_sum_amount [unit_line 1.005] = Some 1%float /\
  rounded_sum_amount [unit_line 1.105] = Some 1.11%float.
Proof.
  intros Hv Hta Htd.
  destruct (passes_validation_inv b Hv) as [_ Hl].
  split.
  { apply calcTotals_validated. exact Hl. }
  split.
  { intros e w id ta td H.
    destruct (orders_raw_ok_body e b w id ta td H) as (Hr & _).
    destruct (resolved_totals_computed b ta td Hr) as (a & d & Ha & Hd & Hra & Hrd).
    destruct (resolve_total_cases _ _ _ Hra) as [_ Ea].
    destruct (resolve_total_cases _ _ _ Hrd) as [_ Ed].
    rewrite Ha, Hd, (Ea Hta), (Ed Htd). split; reflexivity. }
  split.
  { intros e w a d id header binds hdr rows Ha Hd Hc Hf Hid Hb Hbs Hh Hfresh Hrows.
    assert (Hr : resolved_totals b = Some (a, d)).
    { unfold resolved_totals. rewrite Hv.
      rewrite (calcTotals_validated StringToNumber ObjectToString _ Hl), Ha, Hd.
      unfold resolve_total. simpl. rewrite Hta, Htd. reflexivity. }
    exact (proj1 (orders_raw_succeeds e b w a d id header binds hdr rows
                    Hr Hc Hf Hid Hb Hbs Hh Hfresh Hrows)). }
  split; [exact half_up_spec|].
  repeat split; vm_compute; reflexivity.
Qed.

(** C4: in every success response, a total the request supplies (a
    [total_amount] or [total_discount] that is neither absent nor null) comes
    back as [Number] of the supplied value, whatever the lines add up to, and
    a total it does not supply is the one computed from the lines; the header
    row is bound with the same two values. *)
Theorem explicit_totals_verbatim (e : env) (b : value) (w : world)
        (id ta td : float) :
  fst (orders_raw e b w) = Responded (mkResponse 200 (OkBody id ta td)) ->
  (is_nullish (field b "total_amount") = false ->
   Number (field b "total_amount") = Some ta) /\
  (is_nullish (field b "total_amount") = true ->
   rounded_sum_amount (items (field b "lines")) = Some ta) /\
  (is_nullish (field b "total_discount") = false ->
   Number (field b "total_discount") = Some td) /\
  (is_nullish (field b "total_discount") = true ->
   rounded_sum_discount (items (field b "lines")) = Some td) /\
  exists header,
    submitted_header b ta td = Some header /\
    ob_total_amount header = ta /\
    ob_total_discount header = td.
Proof.
  intros H.
  assert (Hs : is_success (fst (orders_raw e b w)) = true) by (rewrite H; reflexivity).
  destruct (orders_raw_success_inv e b w Hs)
    as (_ & _ & ta' & td' & id' & header & binds & hdr & rows & Hr & Hresp & _ & Hb & _).
  rewrite Hresp in H. injection H as -> -> ->.
  destruct (resolved_totals_computed b ta td Hr) as (a & d & Ha & Hd & Hra & Hrd).
  destruct (resolve_total_cases _ _ _ Hra) as [Na Ea].
  destruct (resolve_total_cases _ _ _ Hrd) as [Nd Ed].
  destruct (bind_order_fields StringToNumber ObjectToString _ _ _ _ _ _ header Hb)
    as (_ & _ & _ & Hota & Hotd & _).
  repeat split.
  - exact Na.
  - intros Hn. rewrite Ha, (Ea Hn). reflexivity.
  - exact Nd.
  - intros Hn. rewrite Hd, (Ed Hn). reflexivity.
  - exists header. repeat split; assumption.
Qed.

(** C5: a request whose order key, user reference or payment-status
    reference is absent or null, or whose line list is absent, null or empty,
    is answered 400 with the message listing the required fields, and the
    world is untouched: no connection is asked for, no call is made, no row
    is written. *)
Theorem incomplete_header_rejected (e : env) (b : value) (w : world) :
  header_incomplete b = true ->
  orders_raw e b w =
  (Responded (mkResponse 400 (ErrBody (MsgText required_message))), w).
Proof.
  intros H. unfold orders_raw. cbv zeta. rewrite !field_or_else_empty.
  assert (Hr : header_rejected (field b "ord_id") (field b "usr_id")
                 (field b "pay_stat_id") (field b "lines") = true).
  { unfold header_incomplete in H. unfold header_rejected.
    destruct (is_nullish (field b "ord_id")); [reflexivity|].
    destruct (is_nullish (field b "usr_id")); [reflexivity|].
    destruct (is_nullish (field b "pay_stat_id")); [reflexivity|].
    simpl in *.
    destruct (field b "lines") as [| | | | |[|x xs]|]; simpl in *;
      try reflexivity; discriminate. }
  rewrite Hr. reflexivity.
Qed.

Lemma first_rejected_unacceptable (ls : list value) (i : nat) :
  Forall (fun l => is_nullish l = false) ls ->
  (first_rejected ls i <-> first_unacceptable ls i).
Proof.
  intros Hnn.
  assert (Hrew : forall j l, nth_error ls j = Some l ->
                              line_rejected l = Some (line_unacceptable l)).
  { intros j l Hj. apply line_rejected_nonnull.
    rewrite Forall_forall in Hnn. apply Hnn. exact (nth_error_In _ _ Hj). }
  unfold first_rejected, first_unacceptable. split.
  - intros [(l & Hl & Hr) Hbefore]. split.
    + exists l. split; [exact Hl|]. rewrite (Hrew _ _ Hl) in Hr. congruence.
    + intros j Hj. destruct (Hbefore j Hj) as (l' & Hl' & Hr').
      exists l'. split; [exact Hl'|]. rewrite (Hrew _ _ Hl') in Hr'. congruence.
  - intros [(l & Hl & Hr) Hbefore]. split.
    + exists l. split; [exact Hl|]. rewrite (Hrew _ _ Hl), Hr. reflexivity.
    + intros j Hj. destruct (Hbefore j Hj) as (l' & Hl' & Hr').
      exists l'. split; [exact Hl'|]. rewrite (Hrew _ _ Hl'), Hr'. reflexivity.
Qed.

Lemma respond_not_400 (oid : value) (ta td : float) (r : outcome bool * world)
      (m : message) :
  fst (respond StringToNumber ObjectToString oid ta td r)
  <> Responded (mkResponse 400 (ErrBody m)).
Proof.
  unfold respond. destruct r as [[[|]|x] w']; simpl; try discriminate.
  destruct (Number oid); discriminate.
Qed.

Lemma orders_raw_offending (e : env) (b : value) (w : world) (i : nat) :
  header_rejected (field b "ord_id") (field b "usr_id")
                  (field b "pay_stat_id") (field b "lines") = false ->
  (fst (orders_raw e b w) = Responded (mkResponse 400 (ErrBody (MsgLine i))) <->
   validate_lines 0 (items (field b "lines")) = Offending i) /\
  (validate_lines 0 (items (field b "lines")) = Offending i ->
   snd (orders_raw e b w) = w).
Proof.
  intros Hh. unfold orders_raw. cbv zeta. rewrite !field_or_else_empty, Hh.
  destruct (validate_lines 0 (items (field b "lines"))) as [|j|] eqn:Hval.
  - split; [|discriminate]. split; [|discriminate].
    destruct (calcTotals _); [|discriminate].
    destruct (resolve_total (field b "total_amount") _); [|discriminate].
    destruct (resolve_total (field b "total_discount") _); [|discriminate].
    intros H. exfalso. exact (respond_not_400 _ _ _ _ _ H).
  - split; [|reflexivity]. simpl. split; intros H; injection H as ->; reflexivity.
  - split; [|discriminate]. split; discriminate.
Qed.

(** C6, as the code has it: for a request that passes the header check and
    whose line entries are all objects or other non-null values, the answer
    is 400 naming line [i] exactly when line [i] is the first line whose
    product reference or shipment-status reference is not truthy, or whose
    quantity or unit price is absent or null; and then nothing is written. *)
Theorem line_rejection_names_first_unacceptable (e : env) (b : value) (w : world)
        (i : nat) :
  header_rejected (field b "ord_id") (field b "usr_id")
                  (field b "pay_stat_id") (field b "lines") = false ->
  Forall (fun l => is_nullish l = false) (items (field b "lines")) ->
  (fst (orders_raw e b w) = Responded (mkResponse 400 (ErrBody (MsgLine i))) <->
   first_unacceptable (items (field b "lines")) i) /\
  (first_unacceptable (items (field b "lines")) i -> snd (orders_raw e b w) = w).
Proof.
  intros Hh Hnn. destruct (orders_raw_offending e b w i Hh) as [Hiff Hw].
  assert (Hval : validate_lines 0 (items (field b "lines")) = Offending i <->
                 first_unacceptable (items (field b "lines")) i).
  { rewrite validate_lines_offending, <- (first_rejected_unacceptable _ i Hnn).
    split.
    - intros (j & -> & H). exact H.
    - intros H. exists i. split; [reflexivity|exact H]. }
  split.
  - rewrite Hiff. exact Hval.
  - intros H. apply Hw. apply Hval. exact H.
Qed.


(** C7, as the code has it: when the engine rejects the header insert of a
    request that got as far as making that call (a primary-key violation
    raised after the pre-check saw no such key, or any other rejection), the
    answer is the generic 500 carrying the engine's message, and nothing is
    written.  A 409 is only ever the pre-check's finding: whenever the answer
    is 409, the key was in storage when the request arrived. *)
Theorem insert_rejection_is_generic_failure (b : value) (ta td : float) :
  resolved_totals b = Some (ta, td) ->
  (forall e w id k header f,
     connect_fault e = None ->
     call_fault e 0 = None ->
     Number (field b "ord_id") = Some id ->
     to_db_number id = Some k ->
     has_order k (durable w) = false ->
     submitted_header b ta td = Some header ->
     call_fault e 1 = Some f ->
     fst (orders_raw e b w) =
       Responded (mkResponse 500 (ErrBody (MsgText (fault_message f)))) /\
     durable (snd (orders_raw e b w)) = durable w) /\
  (forall e w msg,
     fst (orders_raw e b w) = Responded (mkResponse 409 (ErrBody msg)) ->
     exists id k, Number (field b "ord_id") = Some id /\
                  to_db_number id = Some k /\
                  has_order k (durable w) = true).
Proof.
  intros Hr. split.
  - intros e w id k header f Hc F0 Hid Hk Hfresh Hb F1.
    assert (H500 : fst (orders_raw e b w) =
              Responded (mkResponse 500 (ErrBody (MsgText (fault_message f))))).
    { rewrite (orders_raw_validated StringToNumber ObjectToString e b w ta td Hr).
      unfold submitted_tx.
      pose proof (order_tx_insert_rejected StringToNumber ObjectToString
                    (field b "ord_id") (field b "order_date") (field b "usr_id")
                    (field b "pay_stat_id") (items (field b "lines")) ta td
                    e w id k header f Hc F0 Hid Hk Hfresh Hb F1) as Hthrew.
      destruct (withConn e _ w) as [r w']. simpl in Hthrew. subst r.
      reflexivity. }
    split; [exact H500|].
    apply orders_raw_failure_keeps. rewrite H500. reflexivity.
  - intros e w msg H.
    rewrite (orders_raw_validated StringToNumber ObjectToString e b w ta td Hr) in H.
    destruct (withConn e (submitted_tx b ta td) w) as [[[|]|m] w'] eqn:Hrun;
      simpl in H; try discriminate.
    + exact (order_tx_conflict_inv StringToNumber ObjectToString
               _ _ _ _ _ _ _ e w w' Hrun).
    + destruct (Number (field b "ord_id")); discriminate.
Qed.

Lemma in_firstn_in {A : Type} (x : A) (n : nat) (l : list A) :
  In x (firstn n l) -> In x l.
Proof.
  revert l. induction n as [|n IH]; intros [|y l] H; simpl in H; try contradiction.
  destruct H as [H|H]; [left; exact H|right; exact (IH _ H)].
Qed.

Lemma bind_line_seq (oid l : value) (bd : line_binds) :
  bind_line oid l = Some bd -> passed_seq l = Some (seq bd).
Proof.
  unfold bind_line. intros H.
  destruct (Number oid); [|discriminate].
  change (bind_seq StringToNumber ObjectToString l) with (passed_seq l) in H.
  destruct (passed_seq l) as [sq|]; [|discriminate].
  destruct (Number (field l "qty")); [|discriminate].
  destruct (Number (field l "unit_price")); [|discriminate].
  destruct (bind_discount _ _ l); [|discriminate].
  destruct (Number (field l "prd_id")); [|discriminate].
  destruct (Number (field l "shp_stat_id")); [|discriminate].
  injection H as <-. reflexivity.
Qed.

Lemma submitted_lines_seq (b : value) (binds : list line_binds) :
  submitted_lines b = Some binds ->
  Forall2 (fun l bd => passed_seq l = Some (seq bd))
          (items (field b "lines")) binds.
Proof.
  unfold submitted_lines. intros H.
  apply (bind_lines_forall2 StringToNumber ObjectToString) in H.
  induction H as [|l bd ls bs Hl _ IH]; constructor; [|exact IH].
  exact (bind_line_seq _ _ _ Hl).
Qed.

Lemma rows_keep_seq (binds : list line_binds) (rows : list dtl_row) :
  rows_of_binds binds rows ->
  Forall2 (fun bd r => seq_column (seq bd) = Some (DTL_SEQ r)) binds rows.
Proof.
  induction 1 as [|bd r bds rs Hb _ IH]; constructor; [|exact IH].
  unfold row_of_line_binds in Hb.
  destruct (to_db_number (ord_id bd)); [|discriminate].
  destruct (seq_column (seq bd)) as [sq|]; [|discriminate].
  destruct (to_db_number (qty bd)); [|discriminate].
  destruct (to_db_number (unit_price bd)); [|discriminate].
  destruct (to_db_number (discount bd)); [|discriminate].
  destruct (to_db_number (prd_id bd)); [|discriminate].
  destruct (to_db_number (shp_stat_id bd)); [|discriminate].
  injection Hb as <-. reflexivity.
Qed.

Lemma forall2_compose {A B C : Type} (P : A -> B -> Prop) (Q : B -> C -> Prop)
      (R : A -> C -> Prop) (la : list A) (lb : list B) (lc : list C) :
  (forall a b c, P a b -> Q b c -> R a c) ->
  Forall2 P la lb -> Forall2 Q lb lc -> Forall2 R la lc.
Proof.
  intros HPQ H. revert lc. induction H as [|a b la lb Hab _ IH]; intros lc Hbc.
  - inversion Hbc. constructor.
  - inversion Hbc as [|? c ? lc' Hq Hrest]; subst.
    constructor; [exact (HPQ _ _ _ Hab Hq)|exact (IH _ Hrest)].
Qed.

(** C8: for a request that passes validation, every [executeMany]
    call the handler makes carries one bind object per line, in order, whose
    [seq] is the line's supplied sequence number after numeric coercion, or
    the null marker when the line supplies none; and on success the row
    stored for each line holds that very number, or is left without one for
    the trigger to fill.  No other value is ever put there. *)
Theorem seq_passed_through (b : value) :
  passes_validation b = true ->
  (forall e w binds ac,
     In (EvExecuteMany binds ac) (new_events e b w) ->
     ac = false /\
     Forall2 (fun l bd => passed_seq l = Some (seq bd))
             (items (field b "lines")) binds) /\
  (forall e w,
     is_success (fst (orders_raw e b w)) = true ->
     exists binds rows,
       submitted_lines b = Some binds /\
       In (EvExecuteMany binds false) (new_events e b w) /\
       ORD_DTL (durable (snd (orders_raw e b w))) = ORD_DTL (durable w) ++ rows /\
       Forall2 (fun l r => exists sq, passed_seq l = Some sq /\
                                      seq_column sq = Some (DTL_SEQ r))
               (items (field b "lines")) rows).
Proof.
  intros _. split.
  - intros e w binds ac Hin. unfold new_events in Hin.
    destruct (resolved_totals b) as [[ta td]|] eqn:Hr.
    2:{ destruct (orders_raw_not_reaching StringToNumber ObjectToString e b w Hr)
          as [Hw _].
        rewrite Hw, skipn_all in Hin. destruct Hin. }
    rewrite (orders_raw_validated StringToNumber ObjectToString e b w ta td Hr) in Hin.
    unfold submitted_tx in Hin.
    destruct (order_tx_log StringToNumber ObjectToString
                (field b "ord_id") (field b "order_date") (field b "usr_id")
                (field b "pay_stat_id") (items (field b "lines")) ta td e w)
      as (n & Hlog).
    destruct (withConn e _ w) as [r w'].
    rewrite respond_world in Hin. simpl in Hlog. rewrite Hlog in Hin.
    rewrite skipn_app, skipn_all, Nat.sub_diag in Hin. cbn [skipn app] in Hin.
    apply in_app_or in Hin as [Hin|Hin].
    + apply in_firstn_in in Hin. unfold planned_calls in Hin.
      destruct Hin as [Hin|Hin]; [discriminate|].
      destruct (Number (field b "ord_id")); [|destruct Hin].
      destruct Hin as [Hin|Hin]; [discriminate|].
      destruct (bind_order _ _ _ _ _ _ _ _); [|destruct Hin].
      destruct Hin as [Hin|Hin]; [discriminate|].
      destruct (bind_lines _ _ _ _) as [bs|] eqn:Hbs; [|destruct Hin].
      destruct Hin as [Hin|[Hin|[]]]; [|discriminate].
      injection Hin as <- <-. split; [reflexivity|].
      exact (submitted_lines_seq b bs Hbs).
    + destruct (connect_fault e); simpl in Hin.
      * destruct Hin.
      * destruct Hin as [Hin|[]]. discriminate.
  - intros e w Hs.
    destruct (orders_raw_success_inv e b w Hs)
      as (_ & _ & ta' & td' & id & header & binds & hdr & rows & _ & _ & _ & _
          & Hbs & _ & _ & Hrows & Hd & Hlog).
    exists binds, rows. split; [exact Hbs|]. split; [|split].
    + rewrite (new_events_of_log e b w _ Hlog).
      unfold tx_calls. simpl. right. right. right. left. reflexivity.
    + rewrite Hd. reflexivity.
    + apply (forall2_compose _ _ _ _ _ _
               (fun l bd r (H1 : passed_seq l = Some (seq bd))
                    (H2 : seq_column (seq bd) = Some (DTL_SEQ r)) =>
                  ex_intro _ (seq bd) (conj H1 H2))
               (submitted_lines_seq b binds Hbs) (rows_keep_seq _ _ Hrows)).
Qed.

End Claims.

(** ** The properties on sample requests *)

Lemma order_creation_atomic_witness :
  (is_success (fst (sample_run bulk_insert_fails two_line_order empty_world)) = false /\
   durable (snd (sample_run bulk_insert_fails two_line_order empty_world)) =
   durable empty_world) /\
  (is_success (fst (sample_run no_faults two_line_order empty_world)) = true /\
   exists hdr rows,
     List.length rows = 2 /\
     durable (snd (sample_run no_faults two_line_order empty_world)) =
       mkStorage (ORDERS (durable empty_world) ++ [hdr])
                 (ORD_DTL (durable empty_world) ++ rows)).
Proof.
  split.
  - split; [reflexivity|].
    apply (proj2 (order_creation_atomic no_text_number sample_object_text
                    bulk_insert_fails two_line_order empty_world)).
    reflexivity.
  - split; [reflexivity|].
    destruct (proj1 (order_creation_atomic no_text_number sample_object_text
                       no_faults two_line_order empty_world) eq_refl)
      as (_ & _ & _ & ta & td & id & header & binds & hdr & rows & _ & _ & _ & _
          & _ & _ & Hlen & Hd & _).
    exists hdr, rows. split; [exact Hlen|exact Hd].
Defined.

(** The rounding is carried out in binary64: the double nearest to 1.005
    lies below 1.005, and a sum of that value comes out as 1. *)
Example round2_in_binary64 : round2 1.005 = 1%float.
Proof. vm_compute. reflexivity. Qed.

(** A null entry in the line list: reading its product reference throws
    before any response is sent. *)
Example null_line_throws :
  sample_run no_faults (sample_order [VNull]) empty_world = (Uncaught, empty_world).
Proof. reflexivity. Qed.

(** The object [{"toString": 0}] as a quantity: [calcTotals] throws before
    the [try] block; as a user reference: the callback throws while building
    the binds of the header insert, and the answer is 500 with the
    TypeError's message. *)
Example unconvertible_values_throw :
  sample_run no_faults unconvertible_qty_order empty_world = (Uncaught, empty_world) /\
  fst (sample_run no_faults unconvertible_usr_order empty_world) =
    Responded (mkResponse 500 (ErrBody (MsgText type_error))).
Proof. split; vm_compute; reflexivity. Qed.

Lemma duplicate_key_conflict_witness :
  resolved_totals no_text_number sample_object_text two_line_order
    = Some (8.32%float, 0%float) /\
  is_success (fst (sample_run no_faults two_line_order empty_world)) = true /\
  fst (sample_run no_faults two_line_order after_first) =
    Responded (mkResponse 409 (ErrBody (MsgExists (VNum 123%float)))) /\
  durable (snd (sample_run no_faults two_line_order after_first)) =
    durable after_first.
Proof.
  assert (Hr : resolved_totals no_text_number sample_object_text two_line_order
               = Some (8.32%float, 0%float)) by (vm_compute; reflexivity).
  destruct (duplicate_key_conflict no_text_number sample_object_text
              two_line_order 8.32 0 Hr) as (_ & Hfirst & Hsecond).
  split; [exact Hr|]. split.
  - eapply (Hfirst no_faults empty_world).
    + reflexivity.
    + intros n _. reflexivity.
    + vm_compute. reflexivity.
    + vm_compute. reflexivity.
    + vm_compute. reflexivity.
    + vm_compute. reflexivity.
    + reflexivity.
    + repeat (constructor; [vm_compute; reflexivity|]). constructor.
  - apply (Hsecond no_faults no_faults empty_world); reflexivity.
Defined.

Lemma totals_are_rounded_sums_witness :
  passes_validation two_line_order = true /\
  is_nullish (field two_line_order "total_amount") = true /\
  is_nullish (field two_line_order "total_discount") = true /\
  forall e w id ta td,
    fst (sample_run e two_line_order w) = Responded (mkResponse 200 (OkBody id ta td)) ->
    rounded_sum_amount no_text_number sample_object_text
      (items (field two_line_order "lines")) = Some ta /\
    rounded_sum_discount no_text_number sample_object_text
      (items (field two_line_order "lines")) = Some td.
Proof.
  repeat (split; [reflexivity|]).
  exact (proj1 (proj2 (totals_are_rounded_sums no_text_number sample_object_text
                         two_line_order eq_refl eq_refl eq_refl))).
Defined.

(** C3 as stated fails.  Read on the exact values of the numbers received:
    the binary64 value written 1.105 lies below 1.105, half-up rounding of
    one unit at that price gives 1.10, and the handler answers 1.11.  Read on
    the decimals as written: one unit at 1.005 rounds half-up to 1.01, and
    the handler, which receives the binary64 value of 1.005, answers 1. *)
Lemma total_is_not_half_up_rounded :
  (fst (sample_run no_faults (sample_order [unit_line 1.105]) empty_world) =
     Responded (mkResponse 200 (OkBody 123 1.11 0)) /\
   half_up_total_amount no_text_number sample_object_text [unit_line 1.105]
     = Some 1.1%float /\
   PrimFloat.eqb 1.11 1.1 = false) /\
  (decimal 1005 3 = 1.005%float /\
   fst (sample_run no_faults (sample_order [unit_line 1.005]) empty_world) =
     Responded (mkResponse 200 (OkBody 123 1 0)) /\
   half_up_2dp (QArith_base.Qmake 1005 1000) = 1.01%float /\
   PrimFloat.eqb 1 1.01 = false).
Proof. repeat split; vm_compute; reflexivity. Qed.

Lemma explicit_totals_verbatim_witness :
  fst (sample_run no_faults order_with_totals empty_world) =
    Responded (mkResponse 200 (OkBody 123 999.5 0)) /\
  (is_nullish (field order_with_totals "total_amount") = false ->
   Number no_text_number sample_object_text
     (field order_with_totals "total_amount") = Some 999.5%float) /\
  (is_nullish (field order_with_totals "total_amount") = true ->
   rounded_sum_amount no_text_number sample_object_text
     (items (field order_with_totals "lines")) = Some 999.5%float) /\
  (is_nullish (field order_with_totals "total_discount") = false ->
   Number no_text_number sample_object_text
     (field order_with_totals "total_discount") = Some 0%float) /\
  (is_nullish (field order_with_totals "total_discount") = true ->
   rounded_sum_discount no_text_number sample_object_text
     (items (field order_with_totals "lines")) = Some 0%float) /\
  exists header,
    submitted_header no_text_number sample_object_text order_with_totals 999.5 0
      = Some header /\
    ob_total_amount header = 999.5%float /\
    ob_total_discount header = 0%float.
Proof.
  split; [vm_compute; reflexivity|].
  apply (explicit_totals_verbatim no_text_number sample_object_text
           no_faults order_with_totals empty_world 123%float 999.5%float 0%float).
  vm_compute. reflexivity.
Defined.

Lemma incomplete_header_rejected_witness :
  header_incomplete headless_order = true /\
  sample_run bulk_insert_fails headless_order after_first =
  (Responded (mkResponse 400 (ErrBody (MsgText required_message))), after_first).
Proof.
  split; [reflexivity|].
  apply (incomplete_header_rejected no_text_number sample_object_text).
  reflexivity.
Defined.

Lemma line_rejection_names_first_unacceptable_witness :
  header_rejected (field zero_product_order "ord_id")
                  (field zero_product_order "usr_id")
                  (field zero_product_order "pay_stat_id")
                  (field zero_product_order "lines") = false /\
  Forall (fun l => is_nullish l = false) (items (field zero_product_order "lines")) /\
  (fst (sample_run no_faults zero_product_order empty_world) =
     Responded (mkResponse 400 (ErrBody (MsgLine 1))) <->
   first_unacceptable (items (field zero_product_order "lines")) 1) /\
  (first_unacceptable (items (field zero_product_order "lines")) 1 ->
   snd (sample_run no_faults zero_product_order empty_world) = empty_world).
Proof.
  split; [reflexivity|].
  assert (Hnn : Forall (fun l => is_nullish l = false)
                       (items (field zero_product_order "lines"))).
  { repeat constructor. }
  split; [exact Hnn|].
  apply (line_rejection_names_first_unacceptable no_text_number sample_object_text
           no_faults zero_product_order empty_world 1).
  - reflexivity.
  - exact Hnn.
Defined.

(** C6 as stated fails: the second line of [zero_product_order] supplies all
    four fields (its product reference is 0), and yet the request is answered
    400 naming that line. *)
Lemma rejected_line_misses_no_field :
  nth_error (items (field zero_product_order "lines")) 1 = Some (sample_line 0 2 4 2) /\
  line_missing_field (sample_line 0 2 4 2) = false /\
  fst (sample_run no_faults zero_product_order empty_world) =
    Responded (mkResponse 400 (ErrBody (MsgLine 1))).
Proof. repeat split; vm_compute; reflexivity. Qed.

Lemma insert_rejection_is_generic_failure_witness :
  resolved_totals no_text_number sample_object_text two_line_order
    = Some (8.32%float, 0%float) /\
  connect_fault pk_violation_on_insert = None /\
  call_fault pk_violation_on_insert 0 = None /\
  Number no_text_number sample_object_text (field two_line_order "ord_id")
    = Some 123%float /\
  to_db_number 123 = Some (8655355533852672, -46)%Z /\
  has_order (8655355533852672, -46)%Z (durable empty_world) = false /\
  call_fault pk_violation_on_insert 1 = Some (mkFault err_unique_constraint 0) /\
  fst (sample_run pk_violation_on_insert two_line_order empty_world) =
    Responded (mkResponse 500 (ErrBody (MsgText err_unique_constraint))) /\
  durable (snd (sample_run pk_violation_on_insert two_line_order empty_world)) =
    durable empty_world.
Proof.
  assert (Hr : resolved_totals no_text_number sample_object_text two_line_order
               = Some (8.32%float, 0%float)) by (vm_compute; reflexivity).
  split; [exact Hr|].
  repeat (split; [vm_compute; reflexivity|]).
  eapply (proj1 (insert_rejection_is_generic_failure no_text_number
                   sample_object_text two_line_order 8.32 0 Hr)
            pk_violation_on_insert empty_world 123%float (8655355533852672, -46)%Z _
            (mkFault err_unique_constraint 0));
    vm_compute; reflexivity.
Defined.

(** C7 as stated fails: the engine rejects the header insert with a
    primary-key violation, and the answer is the generic 500 carrying the
    engine's message, not the 409 conflict. *)
Lemma pk_violation_is_not_conflict :
  call_fault pk_violation_on_insert 1 = Some (mkFault err_unique_constraint 0) /\
  fst (sample_run pk_violation_on_insert two_line_order empty_world) =
    Responded (mkResponse 500 (ErrBody (MsgText err_unique_constraint))) /\
  fst (sample_run pk_violation_on_insert two_line_order empty_world) <>
    Responded (mkResponse 409 (ErrBody (MsgExists (VNum 123%float)))).
Proof.
  split; [reflexivity|]. split; [vm_compute; reflexivity|].
  vm_compute. discriminate.
Qed.

Lemma seq_passed_through_witness :
  passes_validation two_line_order = true /\
  is_success (fst (sample_run no_faults two_line_order empty_world)) = true /\
  exists binds rows,
    submitted_lines no_text_number sample_object_text two_line_order = Some binds /\
    In (EvExecuteMany binds false)
       (new_events no_text_number sample_object_text no_faults two_line_order
                   empty_world) /\
    ORD_DTL (durable (snd (sample_run no_faults two_line_order empty_world))) =
      ORD_DTL (durable empty_world) ++ rows /\
    Forall2 (fun l r =>
               exists sq, passed_seq no_text_number sample_object_text l = Some sq /\
                          seq_column sq = Some (DTL_SEQ r))
            (items (field two_line_order "lines")) rows.
Proof.
  split; [reflexivity|]. split; [reflexivity|].
  apply (proj2 (seq_passed_through no_text_number sample_object_text
                  two_line_order eq_refl) no_faults empty_world).
  reflexivity.
Defined.




(** ** Further properties: [withConn] *)

Lemma run_conn_same_faults {A : Type} (e e' : env) (p : conn_prog A)
      (c : conn_state) :
  (forall n, call_fault e n = call_fault e' n) ->
  run_conn e p c = run_conn e' p c.
Proof.
  intros Hf. revert c.
  induction p as [a|m|s ac k IH|binds ac k IH|k IH]; intros c; simpl.
  - reflexivity.
  - reflexivity.
  - rewrite <- Hf. destruct (call_fault e (cs_calls c)); [reflexivity|].
    destruct (exec_statement s (cs_work c)) as [[m|r] w']; [reflexivity|].
    apply IH.
  - rewrite <- Hf. destruct (call_fault e (cs_calls c)); [reflexivity|].
    destruct (insert_lines binds (cs_work c)) as [[m|] w']; [reflexivity|].
    apply IH.
  - rewrite <- Hf. destruct (call_fault e (cs_calls c)); [reflexivity|].
    apply IH.
Qed.

(** X2: a [close] that rejects is swallowed.  With or without it,
    [withConn] ends the same way (same value or same exception), leaves the
    same committed tables and has made the same calls; only the connection
    count tells the two apart. *)
Theorem withConn_swallows_close_fault {A : Type} (e : env) (fn : conn_prog A)
        (w : world) (c : bool) :
  fst (withConn (with_close_fault e c) fn w) = fst (withConn e fn w) /\
  durable (snd (withConn (with_close_fault e c) fn w)) =
    durable (snd (withConn e fn w)) /\
  log (snd (withConn (with_close_fault e c) fn w)) = log (snd (withConn e fn w)).
Proof.
  unfold withConn. simpl.
  destruct (connect_fault e); [repeat split|].
  rewrite (run_conn_same_faults (with_close_fault e c) e fn _ (fun n => eq_refl)).
  destruct (run_conn e fn _) as [r c']. repeat split.
Qed.

(** ** Further properties: [toNum] and [calcTotals] *)

Section PureFacts.

Variable StringToNumber : string -> float.
Variable ObjectToString : value -> option string.

Local Abbreviation Number := (Number StringToNumber ObjectToString).
Local Abbreviation toNum := (toNum StringToNumber ObjectToString).
Local Abbreviation calcTotals := (calcTotals StringToNumber ObjectToString).
Local Abbreviation calcTotals_loop := (calcTotals_loop StringToNumber ObjectToString).
Local Abbreviation line_reads := (line_reads StringToNumber ObjectToString).
Local Abbreviation order_line_flat_binds :=
  (order_line_flat_binds StringToNumber ObjectToString).
Local Abbreviation sales_daily_binds :=
  (sales_daily_binds StringToNumber ObjectToString).

(** Only an array or an object can make [Number] throw. *)
Lemma Number_primitive (v : value) :
  is_compound v = false -> exists n, Number v = Some n.
Proof.
  destruct v as [| |[|]|n|s|xs|fs]; simpl; intros H;
    try discriminate; eexists; reflexivity.
Qed.

Lemma coalesce_primitive (v : value) (d : float) :
  is_compound v = false -> is_compound (coalesce v (VNum d)) = false.
Proof.
  intros H. unfold coalesce. destruct (is_nullish v); [reflexivity|exact H].
Qed.

Lemma Number_nullish (v : value) :
  is_nullish v = true -> exists n, Number v = Some n.
Proof.
  destruct v; simpl; intros H; try discriminate; eexists; reflexivity.
Qed.

Lemma toNum_defaulted (q : value) (d : float) :
  PrimFloat.is_finite d = true ->
  (forall r, toNum (coalesce q (VNum d)) d = Some r -> PrimFloat.is_finite r = true) /\
  (is_nullish q = true -> toNum (coalesce q (VNum d)) d = Some d) /\
  (forall n, is_nullish q = false -> Number q = Some n ->
             toNum (coalesce q (VNum d)) d =
             Some (if PrimFloat.is_finite n then n else d)) /\
  (toNum (coalesce q (VNum d)) d = None <-> Number q = None).
Proof.
  intros Hd. unfold coalesce. destruct (is_nullish q) eqn:Nq.
  - unfold toNum. simpl. rewrite Hd. repeat split; try discriminate.
    + intros r H. injection H as <-. exact Hd.
    + intros H. destruct (Number_nullish q Nq) as [n Hn]. congruence.
  - unfold toNum. destruct (Number q) as [n|].
    + split; [|split; [|split]].
      * intros r H. injection H as <-.
        destruct (PrimFloat.is_finite n) eqn:Hn; [exact Hn|exact Hd].
      * discriminate.
      * intros n' _ H. injection H as <-. reflexivity.
      * split; discriminate.
    + split; [|split; [|split]].
      * discriminate.
      * discriminate.
      * discriminate.
      * split; reflexivity.
Qed.

(** X3: the numbers the two reporting endpoints bind are always finite,
    whatever the query string holds.  An absent or null [days] or [limit]
    gives the default (90 and 50000 for the flat table, 180 for the daily
    sales), and so does one whose [Number] is NaN or infinite; any other
    value goes through as [Number] of it, without clamping.  No bind is
    computed exactly when [Number] of a parameter throws, which only an
    array or an object can make it do. *)
Theorem report_binds_finite_or_default (query : value) :
  (forall d l, order_line_flat_binds query = Some (d, l) ->
     PrimFloat.is_finite d = true /\ PrimFloat.is_finite l = true) /\
  (forall d, sales_daily_binds query = Some d -> PrimFloat.is_finite d = true) /\
  (forall nd nl,
     Number (field query "days") = Some nd ->
     Number (field query "limit") = Some nl ->
     order_line_flat_binds query =
       Some (if is_nullish (field query "days") then 90%float
             else if PrimFloat.is_finite nd then nd else 90%float,
             if is_nullish (field query "limit") then 50000%float
             else if PrimFloat.is_finite nl then nl else 50000%float)) /\
  (forall nd,
     Number (field query "days") = Some nd ->
     sales_daily_binds query =
       Some (if is_nullish (field query "days") then 180%float
             else if PrimFloat.is_finite nd then nd else 180%float)) /\
  (order_line_flat_binds query = None <->
   Number (field query "days") = None \/ Number (field query "limit") = None) /\
  (sales_daily_binds query = None <-> Number (field query "days") = None) /\
  (is_compound (field query "days") = false ->
   is_compound (field query "limit") = false ->
   order_line_flat_binds query <> None /\ sales_daily_binds query <> None).
Proof.
  destruct (toNum_defaulted (field query "days") 90 eq_refl) as (F1 & N1 & S1 & T1).
  destruct (toNum_defaulted (field query "limit") 50000 eq_refl) as (F2 & N2 & S2 & T2).
  destruct (toNum_defaulted (field query "days") 180 eq_refl) as (F3 & N3 & S3 & T3).
  assert (Hflat : order_line_flat_binds query = None <->
                  Number (field query "days") = None \/
                  Number (field query "limit") = None).
  { unfold order_line_flat_binds. rewrite <- T1, <- T2.
    destruct (toNum (coalesce (field query "days") (VNum 90)) 90);
      destruct (toNum (coalesce (field query "limit") (VNum 50000)) 50000);
      split; intros H; try discriminate; try reflexivity; auto;
      destruct H; discriminate. }
  split; [|split; [|split; [|split; [|split; [|split]]]]].
  - intros d l H. unfold order_line_flat_binds in H.
    destruct (toNum (coalesce (field query "days") (VNum 90)) 90) as [d'|] eqn:E1;
      [|discriminate].
    destruct (toNum (coalesce (field query "limit") (VNum 50000)) 50000)
      as [l'|] eqn:E2; [|discriminate].
    injection H as <- <-. split; [apply F1|apply F2]; reflexivity.
  - intros d H. apply F3. exact H.
  - intros nd nl Hd Hl. unfold order_line_flat_binds.
    destruct (is_nullish (field query "days")) eqn:Nd;
      destruct (is_nullish (field query "limit")) eqn:Nl;
      rewrite ?(N1 eq_refl), ?(N2 eq_refl), ?(S1 nd eq_refl Hd), ?(S2 nl eq_refl Hl);
      reflexivity.
  - intros nd Hd. unfold sales_daily_binds.
    destruct (is_nullish (field query "days")) eqn:Nd;
      rewrite ?(N3 eq_refl), ?(S3 nd eq_refl Hd); reflexivity.
  - exact Hflat.
  - exact T3.
  - intros Cd Cl.
    destruct (Number_primitive _ Cd) as [nd Hd].
    destruct (Number_primitive _ Cl) as [nl Hl]. split.
    + intros H. apply Hflat in H. destruct H; congruence.
    + intros H. apply T3 in H. congruence.
Qed.

Lemma member_none (l : value) (k : string) :
  member l k = None <-> is_nullish l = true.
Proof. destruct l; simpl; split; intros H; try reflexivity; discriminate. Qed.

Lemma calcTotals_loop_step (l : value) (ls : list value) (a d : float) :
  calcTotals_loop (l :: ls) a d =
  match line_reads l with
  | Some (x, y) => calcTotals_loop ls (a + x)%float (d + y)%float
  | None => None
  end.
Proof.
  simpl. unfold line_reads. destruct (is_nullish l) eqn:N.
  - rewrite (member_nullish l "qty" N). reflexivity.
  - rewrite !(member_field l) by exact N.
    destruct (Number (coalesce (field l "qty") (VNum PrimFloat.zero))); [|reflexivity].
    destruct (Number (coalesce (field l "unit_price") (VNum PrimFloat.zero))); [|reflexivity].
    destruct (Number (coalesce (field l "discount") (VNum PrimFloat.zero))); reflexivity.
Qed.

Lemma calcTotals_loop_throws (ls : list value) (a d : float) :
  calcTotals_loop ls a d = None <-> Exists (fun l => line_reads l = None) ls.
Proof.
  revert a d. induction ls as [|l ls IH]; intros a d.
  - simpl. split; [discriminate|]. intros H. inversion H.
  - rewrite calcTotals_loop_step. destruct (line_reads l) as [[x y]|] eqn:R.
    + rewrite IH. split.
      * intros H. right. exact H.
      * intros H. inversion H as [? ? Hl|? ? Hls]; subst; [congruence|exact Hls].
    + split; [|reflexivity]. intros _. left. exact R.
Qed.

Lemma calcTotals_loop_reads (ls : list value) (rs : list (float * float))
      (a d : float) :
  all_some (map line_reads ls) = Some rs ->
  calcTotals_loop ls a d =
  Some (fold_left PrimFloat.add (map fst rs) a,
        fold_left PrimFloat.add (map snd rs) d).
Proof.
  revert rs a d. induction ls as [|l ls IH]; intros rs a d H.
  - simpl in H. injection H as <-. reflexivity.
  - rewrite calcTotals_loop_step. simpl in H.
    destruct (line_reads l) as [[x y]|]; [|discriminate].
    destruct (all_some (map line_reads ls)) as [rs'|]; [|discriminate].
    injection H as <-. simpl. apply IH. reflexivity.
Qed.

Lemma all_some_none {A : Type} (xs : list (option A)) :
  all_some xs = None <-> Exists (fun x => x = None) xs.
Proof.
  induction xs as [|x xs IH]; simpl.
  - split; [discriminate|]. intros H. inversion H.
  - destruct x as [y|].
    + destruct (all_some xs) as [ys|].
      * split; [discriminate|]. intros H.
        inversion H as [? ? Hx|? ? Hxs]; subst; [discriminate|].
        apply IH in Hxs. discriminate.
      * split; [|reflexivity]. intros _. right. apply IH. reflexivity.
    + split; [|reflexivity]. intros _. left. reflexivity.
Qed.

Lemma calcTotals_none (ls : list value) :
  calcTotals ls = None <-> Exists (fun l => line_reads l = None) ls.
Proof.
  rewrite <- (calcTotals_loop_throws ls PrimFloat.zero PrimFloat.zero).
  unfold calcTotals.
  destruct (calcTotals_loop ls PrimFloat.zero PrimFloat.zero) as [[a d]|];
    split; intros H; try discriminate; reflexivity.
Qed.

Lemma resolve_total_none (supplied : value) (computed : float) :
  resolve_total StringToNumber ObjectToString supplied computed = None <->
  is_nullish supplied = false /\ Number supplied = None.
Proof.
  unfold resolve_total. destruct (is_nullish supplied); simpl.
  - split; [discriminate|]. intros [H _]. discriminate.
  - split; [intros H; split; [reflexivity|exact H]|]. intros [_ H]. exact H.
Qed.

(** X4: [calcTotals] throws exactly when the list holds an entry it cannot
    read: a [null] or [undefined] entry, or a line whose quantity, unit
    price or discount makes [Number] throw (which takes an array or an
    object there).  On any other list, validated or not, it returns the two
    sums rounded once each, an absent or null quantity, unit price or
    discount counting as 0. *)
Theorem calcTotals_throws_or_sums (ls : list value) :
  (calcTotals ls = None <-> Exists (fun l => line_reads l = None) ls) /\
  (forall rs, all_some (map line_reads ls) = Some rs ->
     calcTotals ls =
     Some (mkTotals (round2 (sum_floats (map fst rs)))
                    (round2 (sum_floats (map snd rs))))) /\
  (forall l, line_reads l = None <->
     is_nullish l = true \/
     Number (coalesce (field l "qty") (VNum PrimFloat.zero)) = None \/
     Number (coalesce (field l "unit_price") (VNum PrimFloat.zero)) = None \/
     Number (coalesce (field l "discount") (VNum PrimFloat.zero)) = None) /\
  (Forall (fun l => is_nullish l = false /\
                    is_compound (field l "qty") = false /\
                    is_compound (field l "unit_price") = false /\
                    is_compound (field l "discount") = false) ls ->
   exists rs, all_some (map line_reads ls) = Some rs).
Proof.
  assert (Hreads : forall l, line_reads l = None <->
     is_nullish l = true \/
     Number (coalesce (field l "qty") (VNum PrimFloat.zero)) = None \/
     Number (coalesce (field l "unit_price") (VNum PrimFloat.zero)) = None \/
     Number (coalesce (field l "discount") (VNum PrimFloat.zero)) = None).
  { intros l. unfold line_reads. destruct (is_nullish l).
    - split; [intros _; left; reflexivity|reflexivity].
    - destruct (Number (coalesce (field l "qty") (VNum PrimFloat.zero))) as [q|].
      + destruct (Number (coalesce (field l "unit_price") (VNum PrimFloat.zero))) as [u|].
        * destruct (Number (coalesce (field l "discount") (VNum PrimFloat.zero))) as [d|].
          -- split; [discriminate|]. intros [H|[H|[H|H]]]; discriminate.
          -- split; [|reflexivity]. intros _. right. right. right. reflexivity.
        * split; [|reflexivity]. intros _. right. right. left. reflexivity.
      + split; [|reflexivity]. intros _. right. left. reflexivity. }
  split; [|split; [|split]].
  - apply calcTotals_none.
  - intros rs H. unfold calcTotals.
    rewrite (calcTotals_loop_reads ls rs _ _ H). reflexivity.
  - exact Hreads.
  - intros H.
    destruct (all_some (map line_reads ls)) as [rs|] eqn:E; [exists rs; reflexivity|].
    exfalso. apply all_some_none in E. apply Exists_exists in E.
    destruct E as (x & Hin & Hx). apply in_map_iff in Hin.
    destruct Hin as (l & <- & Hl). rewrite Forall_forall in H.
    destruct (H l Hl) as (Nl & Cq & Cu & Cd).
    apply Hreads in Hx. destruct Hx as [Hx|[Hx|[Hx|Hx]]].
    + congruence.
    + destruct (Number_primitive (coalesce (field l "qty") (VNum PrimFloat.zero))) as [n Hn];
        [apply coalesce_primitive; exact Cq|congruence].
    + destruct (Number_primitive (coalesce (field l "unit_price") (VNum PrimFloat.zero))) as [n Hn];
        [apply coalesce_primitive; exact Cu|congruence].
    + destruct (Number_primitive (coalesce (field l "discount") (VNum PrimFloat.zero))) as [n Hn];
        [apply coalesce_primitive; exact Cd|congruence].
Qed.

End PureFacts.

Lemma report_binds_finite_or_default_witness :
  order_line_flat_binds tiny_text_number sample_object_text sample_query
    = Some (7%float, 0%float) /\
  sales_daily_binds tiny_text_number sample_object_text sample_query = Some 7%float /\
  PrimFloat.is_finite 7 = true /\ PrimFloat.is_finite 0 = true.
Proof.
  split; [reflexivity|]. split; [reflexivity|].
  apply (proj1 (report_binds_finite_or_default tiny_text_number sample_object_text
                  sample_query) 7%float 0%float).
  reflexivity.
Defined.

Lemma calcTotals_throws_or_sums_witness :
  all_some (map (line_reads no_text_number sample_object_text)
                [rounding_line; sample_line_seq 7])
    = Some [(0.315%float, 0%float); (8%float, 0%float)] /\
  calcTotals no_text_number sample_object_text [rounding_line; sample_line_seq 7]
    = Some (mkTotals 8.32 0).
Proof.
  assert (H : all_some (map (line_reads no_text_number sample_object_text)
                            [rounding_line; sample_line_seq 7])
              = Some [(0.315%float, 0%float); (8%float, 0%float)])
    by (vm_compute; reflexivity).
  split; [exact H|].
  rewrite (proj1 (proj2 (calcTotals_throws_or_sums no_text_number sample_object_text
                           [rounding_line; sample_line_seq 7])) _ H).
  vm_compute. reflexivity.
Defined.

(** ** Further properties: the rows of the reporting endpoints *)

Lemma lookup_set_field_same (k : string) (v : value) (fields : list (string * value)) :
  lookup k (set_field k v fields) = v.
Proof.
  induction fields as [|[k' v'] rest IH]; simpl.
  - rewrite String.eqb_refl. reflexivity.
  - destruct (String.eqb k k') eqn:E; simpl.
    + rewrite String.eqb_refl. reflexivity.
    + rewrite E. exact IH.
Qed.

Lemma lookup_set_field_other (k k' : string) (v : value)
      (fields : list (string * value)) :
  k' <> k -> lookup k' (set_field k v fields) = lookup k' fields.
Proof.
  intros Hne. apply String.eqb_neq in Hne.
  induction fields as [|[k0 v0] rest IH]; simpl.
  - rewrite Hne. reflexivity.
  - destruct (String.eqb k k0) eqn:E; simpl.
    + apply String.eqb_eq in E. subst k0. rewrite Hne. reflexivity.
    + destruct (String.eqb k' k0); [reflexivity|exact IH].
Qed.

Lemma substring_prefix_length (n : nat) (s : string) :
  String.length (substring 0 n s) <= n.
Proof.
  revert s. induction n as [|n IH]; intros [|c s]; simpl; try lia.
  specialize (IH s). lia.
Qed.

Lemma map_rows_forall2 (f : list (string * value) -> option (list (string * value)))
      (rows out : list (list (string * value))) :
  map_rows f rows = Some out -> Forall2 (fun x y => f x = Some y) rows out.
Proof.
  revert out. induction rows as [|x rows IH]; intros out H; simpl in H.
  - injection H as <-. constructor.
  - destruct (f x) as [y|] eqn:Hx; [|discriminate].
    destruct (map_rows f rows) as [ys|]; [|discriminate].
    injection H as <-. constructor; [exact Hx|apply IH; reflexivity].
Qed.

Lemma day_or_null_shape (iso : value -> option string) (d v : value) :
  day_or_null iso d = Some v ->
  (truthy d = false /\ v = VNull) \/
  (truthy d = true /\ exists s, v = VStr s /\ String.length s <= 10).
Proof.
  unfold day_or_null. destruct (truthy d).
  - destruct (iso d) as [s|]; [|discriminate]. simpl. intros H. injection H as <-.
    right. split; [reflexivity|]. eexists. split; [reflexivity|].
    apply substring_prefix_length.
  - intros H. injection H as <-. left. split; reflexivity.
Qed.

(** X5: when [GET /pbi/order_line_flat] shapes its rows without a date
    conversion throwing, it returns one row per row of the query, in order;
    each agrees with its source on every column other than ORDER_DATE and
    ORDER_DAY; a NULL ORDER_DATE or ORDER_DAY stays [null], a present
    ORDER_DATE becomes its ISO string and a present ORDER_DAY the first ten
    characters of its ISO string at most. *)
Theorem flat_rows_keep_columns (iso : value -> option string)
        (rows out : list (list (string * value))) :
  map_rows (flat_row iso) rows = Some out ->
  List.length out = List.length rows /\
  Forall2 (fun x y =>
             (forall k, k <> "ORDER_DATE" -> k <> "ORDER_DAY" ->
                        lookup k y = lookup k x) /\
             (if truthy (lookup "ORDER_DATE" x)
              then exists s, iso (lookup "ORDER_DATE" x) = Some s /\
                             lookup "ORDER_DATE" y = VStr s
              else lookup "ORDER_DATE" y = VNull) /\
             (if truthy (lookup "ORDER_DAY" x)
              then exists s, lookup "ORDER_DAY" y = VStr s /\ String.length s <= 10
              else lookup "ORDER_DAY" y = VNull))
          rows out.
Proof.
  intros H. apply map_rows_forall2 in H.
  split; [symmetry; exact (Forall2_length H)|].
  induction H as [|x y rows out Hxy _ IH]; constructor; [|exact IH].
  unfold flat_row in Hxy.
  destruct (iso_or_null iso (lookup "ORDER_DATE" x)) as [date|] eqn:Hdate;
    [|discriminate].
  destruct (day_or_null iso (lookup "ORDER_DAY" x)) as [day|] eqn:Hday;
    [|discriminate].
  injection Hxy as <-. split; [|split].
  - intros k Hk1 Hk2.
    rewrite (lookup_set_field_other "ORDER_DAY" k) by exact Hk2.
    apply lookup_set_field_other. exact Hk1.
  - rewrite (lookup_set_field_other "ORDER_DAY" "ORDER_DATE") by discriminate.
    rewrite lookup_set_field_same. unfold iso_or_null in Hdate.
    destruct (truthy (lookup "ORDER_DATE" x)).
    + destruct (iso (lookup "ORDER_DATE" x)) as [s|]; [|discriminate].
      injection Hdate as <-. exists s. split; reflexivity.
    + injection Hdate as <-. reflexivity.
  - rewrite lookup_set_field_same.
    destruct (day_or_null_shape iso _ _ Hday) as [[-> ->]|(-> & s & -> & Hs)].
    + reflexivity.
    + exists s. split; [reflexivity|exact Hs].
Qed.

Lemma flat_rows_keep_columns_witness :
  map_rows (flat_row sample_iso) [sample_row; sample_row] =
    Some [set_field "ORDER_DATE" (VStr "2026-02-25T12:00:00.000Z") sample_row;
          set_field "ORDER_DATE" (VStr "2026-02-25T12:00:00.000Z") sample_row] /\
  List.length [set_field "ORDER_DATE" (VStr "2026-02-25T12:00:00.000Z") sample_row;
               set_field "ORDER_DATE" (VStr "2026-02-25T12:00:00.000Z") sample_row]
    = List.length [sample_row; sample_row].
Proof.
  split; [reflexivity|].
  apply (flat_rows_keep_columns sample_iso [sample_row; sample_row]).
  reflexivity.
Defined.

(** X6: when [GET /pbi/sales_daily] shapes its rows without a date
    conversion throwing, it returns one row per row of the query, in order;
    each agrees with its source on every column other than ORDER_DAY (the
    sums and the count go through untouched), and ORDER_DAY is [null] for a
    NULL day and otherwise a string of at most ten characters. *)
Theorem daily_rows_keep_columns (iso : value -> option string)
        (rows out : list (list (string * value))) :
  map_rows (daily_row iso) rows = Some out ->
  List.length out = List.length rows /\
  Forall2 (fun x y =>
             (forall k, k <> "ORDER_DAY" -> lookup k y = lookup k x) /\
             (if truthy (lookup "ORDER_DAY" x)
              then exists s, lookup "ORDER_DAY" y = VStr s /\ String.length s <= 10
              else lookup "ORDER_DAY" y = VNull))
          rows out.
Proof.
  intros H. apply map_rows_forall2 in H.
  split; [symmetry; exact (Forall2_length H)|].
  induction H as [|x y rows out Hxy _ IH]; constructor; [|exact IH].
  unfold daily_row in Hxy.
  destruct (day_or_null iso (lookup "ORDER_DAY" x)) as [day|] eqn:Hday;
    [|discriminate].
  injection Hxy as <-. split.
  - intros k Hk. apply lookup_set_field_other. exact Hk.
  - rewrite lookup_set_field_same.
    destruct (day_or_null_shape iso _ _ Hday) as [[-> ->]|(-> & s & -> & Hs)].
    + reflexivity.
    + exists s. split; [reflexivity|exact Hs].
Qed.

Lemma daily_rows_keep_columns_witness :
  map_rows (daily_row sample_iso) [sample_row] = Some [sample_row] /\
  List.length [sample_row] = List.length [sample_row].
Proof.
  split; [reflexivity|].
  apply (daily_rows_keep_columns sample_iso [sample_row]).
  reflexivity.
Defined.

(** ** Further properties: the order intake handler *)




Lemma header_rejected_usable (id u p l : value) :
  header_rejected id u p l =
  is_nullish id || is_nullish u || is_nullish p || negb (lines_usable l).
Proof.
  unfold header_rejected.
  destruct (is_nullish id), (is_nullish u), (is_nullish p),
    l as [| | | | |[|x xs]|]; reflexivity.
Qed.

Lemma validate_lines_throws (ls : list value) (n : nat) :
  validate_lines n ls = LineThrows <-> exists j, first_null_line ls j.
Proof.
  revert n. induction ls as [|l ls IH]; intros n; simpl.
  - split; [discriminate|]. intros (j & (l & Hn & _) & _). destruct j; discriminate.
  - destruct (line_rejected l) as [[|]|] eqn:R.
    + split; [discriminate|].
      intros (j & (l0 & Hn & Hnull) & Hbefore). destruct j as [|j].
      * simpl in Hn. injection Hn as <-.
        rewrite (line_rejected_null l Hnull) in R. discriminate.
      * destruct (Hbefore 0 ltac:(lia)) as (l' & Hl' & Hr').
        simpl in Hl'. injection Hl' as <-. congruence.
    + rewrite (IH (S n)). split.
      * intros (j & (l0 & Hn & Hnull) & Hbefore). exists (S j).
        split; [exists l0; auto|].
        intros [|j'] Hj'; [exists l; auto|]. apply (Hbefore j'). lia.
      * intros (j & (l0 & Hn & Hnull) & Hbefore). destruct j as [|j].
        { simpl in Hn. injection Hn as <-.
          rewrite (line_rejected_null l Hnull) in R. discriminate. }
        exists j. split; [exists l0; auto|].
        intros j' Hj'. apply (Hbefore (S j')). lia.
    + split; [|reflexivity]. intros _. exists 0. split.
      * exists l. split; [reflexivity|].
        destruct (is_nullish l) eqn:N; [reflexivity|].
        rewrite (line_rejected_nonnull l N) in R. discriminate.
      * intros j' Hj'. lia.
Qed.

Section MoreHandlerFacts.

Variable StringToNumber : string -> float.
Variable ObjectToString : value -> option string.

Local Abbreviation Number := (Number StringToNumber ObjectToString).
Local Abbreviation calcTotals := (calcTotals StringToNumber ObjectToString).
Local Abbreviation line_reads := (line_reads StringToNumber ObjectToString).
Local Abbreviation resolve_total := (resolve_total StringToNumber ObjectToString).
Local Abbreviation respond := (respond StringToNumber ObjectToString).
Local Abbreviation orders_raw := (orders_raw StringToNumber ObjectToString).
Local Abbreviation resolved_totals := (resolved_totals StringToNumber ObjectToString).
Local Abbreviation submitted_tx := (submitted_tx StringToNumber ObjectToString).

Lemma respond_responds (oid : value) (ta td : float) (r : outcome bool * world) :
  exists rsp,
    fst (respond oid ta td r) = Responded rsp /\
    ((status rsp = 200 /\ exists id a d, body rsp = OkBody id a d) \/
     ((status rsp = 409 \/ status rsp = 500) /\ exists m, body rsp = ErrBody m)).
Proof.
  unfold respond. destruct r as [[[|]|m] w'].
  - eexists. split; [reflexivity|]. right. split; [left; reflexivity|].
    eexists. reflexivity.
  - destruct (Number oid) as [id|]; eexists; (split; [reflexivity|]).
    + left. split; [reflexivity|]. do 3 eexists. reflexivity.
    + right. split; [right; reflexivity|]. eexists. reflexivity.
  - eexists. split; [reflexivity|]. right. split; [right; reflexivity|].
    eexists. reflexivity.
Qed.

(** X7: the handler answers 400 with the required-fields message exactly
    when [ord_id], [usr_id] or [pay_stat_id] is absent or null, or [lines] is
    anything but an array with at least one entry (absent, null, a string, a
    number, an object, the empty array); and then it touches nothing. *)
Theorem header_rejection_iff (e : env) (b : value) (w : world) :
  (fst (orders_raw e b w) =
     Responded (mkResponse 400 (ErrBody (MsgText required_message))) <->
   is_nullish (field b "ord_id") || is_nullish (field b "usr_id")
   || is_nullish (field b "pay_stat_id")
   || negb (lines_usable (field b "lines")) = true) /\
  (is_nullish (field b "ord_id") || is_nullish (field b "usr_id")
   || is_nullish (field b "pay_stat_id")
   || negb (lines_usable (field b "lines")) = true ->
   snd (orders_raw e b w) = w).
Proof.
  rewrite <- header_rejected_usable.
  unfold orders_raw. cbv zeta. rewrite !field_or_else_empty.
  destruct (header_rejected _ _ _ _).
  - split; [split; reflexivity|reflexivity].
  - split; [|discriminate]. split; [|discriminate].
    destruct (validate_lines 0 _); try discriminate.
    destruct (calcTotals _) as [c|]; [|discriminate].
    destruct (resolve_total (field b "total_amount") _) as [ta|]; [|discriminate].
    destruct (resolve_total (field b "total_discount") _) as [td|]; [|discriminate].
    destruct (respond_responds (field b "ord_id") ta td
                (withConn e (order_tx StringToNumber ObjectToString
                               (field b "ord_id") (field b "order_date")
                               (field b "usr_id") (field b "pay_stat_id")
                               (items (field b "lines")) ta td) w))
      as (rsp & -> & [[Hst _]|[[Hst|Hst] _]]);
      intros H; injection H as ->; discriminate.
Qed.

(** X8: a request body that is not a JSON object (absent, [null], a number,
    a string, a boolean, an array) is answered 400 with the required-fields
    message, and nothing is touched. *)
Theorem non_object_body_rejected (e : env) (b : value) (w : world) :
  is_object b = false ->
  orders_raw e b w =
  (Responded (mkResponse 400 (ErrBody (MsgText required_message))), w).
Proof.
  intros H. unfold orders_raw. cbv zeta. rewrite !field_or_else_empty.
  destruct b; try discriminate; reflexivity.
Qed.

(** X9: for a request that passes the header check, the handler throws
    before its [try] block, sending no response, in exactly two cases.
    Either the line list holds a [null] (or [undefined]) entry and every
    entry before the first such one passes the per-line check: reading its
    product reference throws.  Or every line passes the check and a
    conversion throws: in [calcTotals], [Number] of a line's quantity, unit
    price or discount, or afterwards [Number] of a supplied total.  In both
    cases nothing is touched. *)
Theorem uncaught_iff_throw_before_try (e : env) (b : value) (w : world) :
  header_rejected (field b "ord_id") (field b "usr_id")
                  (field b "pay_stat_id") (field b "lines") = false ->
  (fst (orders_raw e b w) = Uncaught <->
   (exists j, first_null_line (items (field b "lines")) j) \/
   (Forall (fun l => line_rejected l = Some false) (items (field b "lines")) /\
    (Exists (fun l => line_reads l = None) (items (field b "lines")) \/
     (is_nullish (field b "total_amount") = false /\
      Number (field b "total_amount") = None) \/
     (is_nullish (field b "total_discount") = false /\
      Number (field b "total_discount") = None)))) /\
  (fst (orders_raw e b w) = Uncaught -> snd (orders_raw e b w) = w).
Proof.
  intros Hh.
  pose proof (validate_lines_throws (items (field b "lines")) 0) as Hthrows.
  pose proof (validate_lines_pass (items (field b "lines")) 0) as Hpass.
  pose proof (calcTotals_none StringToNumber ObjectToString
                (items (field b "lines"))) as Hcalc.
  unfold orders_raw. cbv zeta. rewrite !field_or_else_empty, Hh.
  destruct (validate_lines 0 (items (field b "lines"))) as [|i|] eqn:Hval.
  - assert (Hno : ~ exists j, first_null_line (items (field b "lines")) j).
    { intros H. apply Hthrows in H. discriminate. }
    assert (Hall : Forall (fun l => line_rejected l = Some false)
                          (items (field b "lines"))) by (apply Hpass; reflexivity).
    destruct (calcTotals _) as [c|].
    2:{ split; [|reflexivity]. split; [|reflexivity].
        intros _. right. split; [exact Hall|]. left. apply Hcalc. reflexivity. }
    assert (Hread : ~ Exists (fun l => line_reads l = None)
                      (items (field b "lines"))).
    { intros H. apply Hcalc in H. discriminate. }
    pose proof (resolve_total_none StringToNumber ObjectToString
                  (field b "total_amount") (totalAmount c)) as Hta.
    destruct (resolve_total (field b "total_amount") _) as [ta|].
    2:{ split; [|reflexivity]. split; [|reflexivity].
        intros _. right. split; [exact Hall|]. right. left. apply Hta. reflexivity. }
    pose proof (resolve_total_none StringToNumber ObjectToString
                  (field b "total_discount") (totalDiscount c)) as Htd.
    destruct (resolve_total (field b "total_discount") _) as [td|].
    2:{ split; [|reflexivity]. split; [|reflexivity].
        intros _. right. split; [exact Hall|]. right. right. apply Htd. reflexivity. }
    destruct (respond_responds (field b "ord_id") ta td
                (withConn e (order_tx StringToNumber ObjectToString
                               (field b "ord_id") (field b "order_date")
                               (field b "usr_id") (field b "pay_stat_id")
                               (items (field b "lines")) ta td) w))
      as (rsp & Hrsp & _).
    rewrite Hrsp. split; [|discriminate]. split; [discriminate|].
    intros [H|[_ [H|[H|H]]]].
    + destruct (Hno H).
    + destruct (Hread H).
    + apply Hta in H. discriminate.
    + apply Htd in H. discriminate.
  - split; [|discriminate]. split; [discriminate|].
    intros [H|[H _]].
    + apply Hthrows in H. discriminate.
    + apply Hpass in H. discriminate.
  - split; [|reflexivity]. split; [|reflexivity].
    intros _. left. apply Hthrows. reflexivity.
Qed.

(** X10: every response the handler sends is of one of four kinds: status
    200 with the success body, or status 400, 409 or 500 with an error body.
    A success body never goes out under another status. *)
Theorem response_shapes (e : env) (b : value) (w : world) (r : response) :
  fst (orders_raw e b w) = Responded r ->
  (status r = 200 /\ exists id ta td, body r = OkBody id ta td) \/
  ((status r = 400 \/ status r = 409 \/ status r = 500) /\
   exists m, body r = ErrBody m).
Proof.
  unfold orders_raw. cbv zeta.
  destruct (header_rejected _ _ _ _).
  { intros H. injection H as <-. right. split; [left; reflexivity|eexists; reflexivity]. }
  destruct (validate_lines 0 _); try discriminate.
  2:{ intros H. injection H as <-. right. split; [left; reflexivity|eexists; reflexivity]. }
  destruct (calcTotals _) as [c|]; [|discriminate].
  destruct (resolve_total _ (totalAmount c)) as [ta|]; [|discriminate].
  destruct (resolve_total _ (totalDiscount c)) as [td|]; [|discriminate].
  match goal with
  | |- fst (_ ?oid ta td ?run) = _ -> _ =>
      destruct (respond_responds oid ta td run) as (rsp & Hrsp & Hshape)
  end.
  rewrite Hrsp. intros H. injection H as <-.
  destruct Hshape as [Hok|[[Hst|Hst] Hm]].
  - left. exact Hok.
  - right. split; [right; left; exact Hst|exact Hm].
  - right. split; [right; right; exact Hst|exact Hm].
Qed.

(** X11: when the connection cannot be acquired, a request that got as far
    as the [try] block (it passed validation and no conversion threw while
    its totals were resolved) is answered 500 with the driver's message; the
    tables are as before, the only event is the attempt to connect, and
    [close] is not called. *)
Theorem connection_failure_is_500 (e : env) (b : value) (w : world) (m : string)
        (ta td : float) :
  resolved_totals b = Some (ta, td) ->
  connect_fault e = Some m ->
  orders_raw e b w =
  (Responded (mkResponse 500 (ErrBody (MsgText m))),
   mkWorld (durable w) (open_connections w) (log w ++ [EvGetConnection])).
Proof.
  intros Hr Hc.
  rewrite (orders_raw_validated StringToNumber ObjectToString e b w ta td Hr).
  rewrite (withConn_not_acquired e (submitted_tx b ta td) w m Hc). reflexivity.
Qed.

End MoreHandlerFacts.

Lemma non_object_body_rejected_witness :
  is_object (VArr [rounding_line]) = false /\
  sample_run no_faults (VArr [rounding_line]) after_first =
  (Responded (mkResponse 400 (ErrBody (MsgText required_message))), after_first).
Proof.
  split; [reflexivity|].
  apply (non_object_body_rejected no_text_number sample_object_text). reflexivity.
Defined.

Lemma uncaught_iff_throw_before_try_witness :
  header_rejected (field null_line_order "ord_id") (field null_line_order "usr_id")
                  (field null_line_order "pay_stat_id")
                  (field null_line_order "lines") = false /\
  first_null_line (items (field null_line_order "lines")) 1 /\
  fst (sample_run no_faults null_line_order empty_world) = Uncaught.
Proof.
  assert (H : first_null_line (items (field null_line_order "lines")) 1).
  { split.
    - exists VNull. split; reflexivity.
    - intros j Hj. assert (j = 0) as -> by lia.
      exists (sample_line 5 1 1 2). split; reflexivity. }
  split; [reflexivity|]. split; [exact H|].
  apply (proj1 (uncaught_iff_throw_before_try no_text_number sample_object_text
                  no_faults null_line_order empty_world eq_refl)).
  left. exists 1. exact H.
Defined.

Lemma response_shapes_witness :
  fst (sample_run bulk_insert_fails two_line_order empty_world) =
    Responded (mkResponse 500 (ErrBody (MsgText "ORA-02291: parent key not found"))) /\
  ((status (mkResponse 500 (ErrBody (MsgText "ORA-02291: parent key not found"))) = 200 /\
    exists id ta td,
      body (mkResponse 500 (ErrBody (MsgText "ORA-02291: parent key not found")))
      = OkBody id ta td) \/
   ((status (mkResponse 500 (ErrBody (MsgText "ORA-02291: parent key not found"))) = 400 \/
     status (mkResponse 500 (ErrBody (MsgText "ORA-02291: parent key not found"))) = 409 \/
     status (mkResponse 500 (ErrBody (MsgText "ORA-02291: parent key not found"))) = 500) /\
    exists m,
      body (mkResponse 500 (ErrBody (MsgText "ORA-02291: parent key not found")))
      = ErrBody m)).
Proof.
  split; [vm_compute; reflexivity|].
  apply (response_shapes no_text_number sample_object_text
           bulk_insert_fails two_line_order empty_world).
  vm_compute. reflexivity.
Defined.

Lemma connection_failure_is_500_witness :
  resolved_totals no_text_number sample_object_text two_line_order
    = Some (8.32%float, 0%float) /\
  connect_fault cannot_connect = Some "ORA-12541: no listener" /\
  sample_run cannot_connect two_line_order empty_world =
  (Responded (mkResponse 500 (ErrBody (MsgText "ORA-12541: no listener"))),
   mkWorld (durable empty_world) (open_connections empty_world)
           (log empty_world ++ [EvGetConnection])).
Proof.
  assert (Hr : resolved_totals no_text_number sample_object_text two_line_order
               = Some (8.32%float, 0%float)) by (vm_compute; reflexivity).
  split; [exact Hr|]. split; [reflexivity|].
  apply (connection_failure_is_500 no_text_number sample_object_text
           cannot_connect two_line_order empty_world _ 8.32%float 0%float Hr).
  reflexivity.
Defined.

(** A request that passes validation and whose quantity cannot be
    converted, with the connection refused: the handler throws before it
    tries to connect, and no response is sent. *)
Example unconvertible_before_connect :
  passes_validation unconvertible_qty_order = true /\
  sample_run cannot_connect unconvertible_qty_order empty_world
    = (Uncaught, empty_world).
Proof. split; vm_compute; reflexivity. Qed.

(** ** Further properties: what the handler keeps true of storage *)

Lemma has_order_mono (k : db_number) (s : storage) (hdrs : list order_row)
      (rows : list dtl_row) :
  has_order k s = true ->
  has_order k (mkStorage (ORDERS s ++ hdrs) rows) = true.
Proof.
  unfold has_order. simpl. intros H. rewrite existsb_app, H. reflexivity.
Qed.

Lemma filter_none {A : Type} (p : A -> bool) (l : list A) :
  existsb p l = false -> filter p l = [].
Proof.
  induction l as [|x l IH]; simpl; [reflexivity|].
  destruct (p x); simpl; [discriminate|exact IH].
Qed.

Lemma row_of_order_binds_fields (bd : order_binds) (r : order_row) :
  row_of_order_binds bd = Some r ->
  to_db_number (ob_ord_id bd) = Some (ORD_ID r) /\
  to_db_number (ob_total_amount bd) = Some (TOTAL_AMOUNT r) /\
  to_db_number (ob_total_discount bd) = Some (TOTAL_DISCOUNT r) /\
  to_db_number (ob_usr_id bd) = Some (USR_ID r) /\
  to_db_number (ob_pay_stat_id bd) = Some (PAY_STAT_ID r) /\
  ORDER_DATE r = ob_order_date bd.
Proof.
  unfold row_of_order_binds. intros H.
  destruct (to_db_number (ob_ord_id bd)); [|discriminate].
  destruct (to_db_number (ob_total_amount bd)); [|discriminate].
  destruct (to_db_number (ob_total_discount bd)); [|discriminate].
  destruct (to_db_number (ob_usr_id bd)); [|discriminate].
  destruct (to_db_number (ob_pay_stat_id bd)); [|discriminate].
  injection H as <-. repeat split.
Qed.

Lemma row_of_line_binds_fields (bd : line_binds) (r : dtl_row) :
  row_of_line_binds bd = Some r ->
  to_db_number (ord_id bd) = Some (DTL_ORD_ID r) /\
  to_db_number (qty bd) = Some (DTL_QTY r) /\
  to_db_number (unit_price bd) = Some (DTL_UNIT_PRICE r) /\
  to_db_number (discount bd) = Some (DTL_DISCOUNT r) /\
  to_db_number (prd_id bd) = Some (DTL_PRD_ID r) /\
  to_db_number (shp_stat_id bd) = Some (DTL_SHP_STAT_ID r) /\
  DTL_COMMENT_TEXT r = comment_text bd /\
  DTL_RATING r = rating bd.
Proof.
  unfold row_of_line_binds. intros H.
  destruct (to_db_number (ord_id bd)); [|discriminate].
  destruct (seq_column (seq bd)); [|discriminate].
  destruct (to_db_number (qty bd)); [|discriminate].
  destruct (to_db_number (unit_price bd)); [|discriminate].
  destruct (to_db_number (discount bd)); [|discriminate].
  destruct (to_db_number (prd_id bd)); [|discriminate].
  destruct (to_db_number (shp_stat_id bd)); [|discriminate].
  injection H as <-. repeat split.
Qed.

Section StorageInvariants.

Variable StringToNumber : string -> float.
Variable ObjectToString : value -> option string.

Local Abbreviation Number := (Number StringToNumber ObjectToString).
Local Abbreviation bind_line := (bind_line StringToNumber ObjectToString).
Local Abbreviation bind_lines := (bind_lines StringToNumber ObjectToString).
Local Abbreviation bind_order := (bind_order StringToNumber ObjectToString).
Local Abbreviation order_tx := (order_tx StringToNumber ObjectToString).
Local Abbreviation planned_calls := (planned_calls StringToNumber ObjectToString).
Local Abbreviation orders_raw := (orders_raw StringToNumber ObjectToString).
Local Abbreviation resolved_totals := (resolved_totals StringToNumber ObjectToString).
Local Abbreviation submitted_tx := (submitted_tx StringToNumber ObjectToString).
Local Abbreviation submitted_header := (submitted_header StringToNumber ObjectToString).
Local Abbreviation submitted_lines := (submitted_lines StringToNumber ObjectToString).
Local Abbreviation stored_as := (stored_as StringToNumber ObjectToString).
Local Abbreviation new_events := (new_events StringToNumber ObjectToString).

Lemma bind_line_fields (oid l : value) (bd : line_binds) :
  bind_line oid l = Some bd ->
  Number oid = Some (ord_id bd) /\
  Number (field l "qty") = Some (qty bd) /\
  Number (field l "unit_price") = Some (unit_price bd) /\
  bind_discount StringToNumber ObjectToString l = Some (discount bd) /\
  Number (field l "prd_id") = Some (prd_id bd) /\
  Number (field l "shp_stat_id") = Some (shp_stat_id bd) /\
  comment_text bd = coalesce (field l "comment_text") VNull /\
  rating bd = coalesce (field l "rating") VNull.
Proof.
  unfold bind_line. intros H.
  destruct (Number oid) as [id|]; [|discriminate].
  destruct (bind_seq StringToNumber ObjectToString l) as [sq|]; [|discriminate].
  destruct (Number (field l "qty")) as [q|]; [|discriminate].
  destruct (Number (field l "unit_price")) as [u|]; [|discriminate].
  destruct (bind_discount StringToNumber ObjectToString l) as [d|]; [|discriminate].
  destruct (Number (field l "prd_id")) as [p|]; [|discriminate].
  destruct (Number (field l "shp_stat_id")) as [sh|]; [|discriminate].
  injection H as <-. repeat split.
Qed.

Lemma rows_match_lines (oid : value) (ls : list value) (binds : list line_binds)
      (rows : list dtl_row) :
  bind_lines oid ls = Some binds ->
  rows_of_binds binds rows ->
  Forall2 (fun l r => exists bd, bind_line oid l = Some bd /\
                                 row_of_line_binds bd = Some r) ls rows.
Proof.
  intros Hb Hrows.
  apply (forall2_compose _ _ _ _ _ _
           (fun l bd r (H1 : bind_line oid l = Some bd)
                (H2 : row_of_line_binds bd = Some r) =>
              ex_intro _ bd (conj H1 H2))
           (bind_lines_forall2 StringToNumber ObjectToString _ _ _ Hb) Hrows).
Qed.

(** X12: a request whose key is already in ORDERS never succeeds and never
    gets as far as a write, whatever the environment does: the answer is not
    a success, the tables are as before, and the request makes no insert, no
    batch insert and no commit. *)
Theorem existing_key_never_written (e : env) (b : value) (w : world)
        (id : float) (k : db_number) :
  Number (field b "ord_id") = Some id ->
  to_db_number id = Some k ->
  has_order k (durable w) = true ->
  is_success (fst (orders_raw e b w)) = false /\
  durable (snd (orders_raw e b w)) = durable w /\
  Forall (fun ev => is_write_call ev = false) (new_events e b w).
Proof.
  intros Hid Hk Hex. destruct (resolved_totals b) as [[ta td]|] eqn:Hr.
  - assert (H : exists r n evs,
               orders_raw e b w = (r, mkWorld (durable w) n (log w ++ evs)) /\
               is_success r = false /\
               Forall (fun ev => is_write_call ev = false) evs).
    { rewrite (orders_raw_validated StringToNumber ObjectToString e b w ta td Hr).
      unfold submitted_tx.
      destruct (connect_fault e) as [m|] eqn:Hc.
      - rewrite (withConn_not_acquired e _ w m Hc).
        eexists _, _, [EvGetConnection]. split; [reflexivity|].
        split; [reflexivity|repeat constructor].
      - destruct (call_fault e 0) as [f|] eqn:F0.
        + unfold withConn, order_tx. rewrite Hc, Hid. simpl. rewrite F0. simpl.
          eexists _, _, [EvGetConnection; _; EvClose].
          split; [rewrite <- !app_assoc; reflexivity|].
          split; [reflexivity|repeat constructor].
        + rewrite (order_tx_conflict StringToNumber ObjectToString
                     _ _ _ _ _ _ _ e w id k Hc F0 Hid Hk Hex).
          eexists _, _, _. split; [reflexivity|].
          split; [reflexivity|repeat constructor]. }
    destruct H as (r & n & evs & Hrun & Hs & Hev).
    rewrite (new_events_of_log StringToNumber ObjectToString e b w evs)
      by (rewrite Hrun; reflexivity).
    rewrite Hrun. repeat split; assumption.
  - destruct (orders_raw_not_reaching StringToNumber ObjectToString e b w Hr)
      as [Hw Hs].
    rewrite (new_events_of_log StringToNumber ObjectToString e b w [])
      by (rewrite Hw, app_nil_r; reflexivity).
    rewrite Hw. repeat split; [exact Hs|constructor].
Qed.


(** X14: the handler never leaves a line without its order.  If every row of
    ORD_DTL belongs to a row of ORDERS before a request, the same holds after
    it, whatever the request and whatever the environment. *)
Theorem lines_have_header_preserved (e : env) (b : value) (w : world) :
  lines_have_header (durable w) ->
  lines_have_header (durable (snd (orders_raw e b w))).
Proof.
  intros Hinv. destruct (is_success (fst (orders_raw e b w))) eqn:Hs.
  - destruct (orders_raw_success_inv StringToNumber ObjectToString e b w Hs)
      as (_ & _ & ta & td & id & header & binds & hdr & rows & _ & _ & Hid & Hb
          & Hbs & Hh & _ & Hrows & Hd & _).
    rewrite Hd. unfold lines_have_header in *. simpl.
    apply Forall_app. split.
    + eapply Forall_impl; [|exact Hinv]. intros r Hr.
      apply has_order_mono. exact Hr.
    + apply row_of_order_binds_fields in Hh. destruct Hh as (Hkey & _).
      destruct (bind_order_fields StringToNumber ObjectToString
                  _ _ _ _ _ _ header Hb) as (Hoid & _).
      pose proof (rows_match_lines _ _ _ _ Hbs Hrows) as Hmatch.
      assert (Hnew : Forall (fun r => DTL_ORD_ID r = ORD_ID hdr) rows).
      { clear Hd Hrows Hbs. induction Hmatch as [|l r ls rs (bd & Hl & Hlr) _ IH];
          constructor; [|exact IH].
        apply row_of_line_binds_fields in Hlr. destruct Hlr as (Hk & _).
        apply bind_line_fields in Hl. destruct Hl as (Hlid & _).
        assert (ord_id bd = ob_ord_id header) as Heq by congruence.
        rewrite Heq, Hkey in Hk. injection Hk as <-. reflexivity. }
      eapply Forall_impl; [|exact Hnew]. intros r Hr.
      apply has_order_appended. symmetry. exact Hr.
  - rewrite (orders_raw_failure_keeps StringToNumber ObjectToString e b w Hs).
    exact Hinv.
Qed.

(** X15: what a success response reports is what was stored.  The request
    added one row to ORDERS whose key and totals are the response's [ord_id],
    [total_amount] and [total_discount], dated with the supplied
    [order_date] when that is truthy and with the time of insertion
    otherwise; and the pre-check query for that key now finds exactly one
    row. *)
Theorem stored_header_matches_response (e : env) (b : value) (w : world)
        (id ta td : float) :
  fst (orders_raw e b w) = Responded (mkResponse 200 (OkBody id ta td)) ->
  exists hdr,
    ORDERS (durable (snd (orders_raw e b w))) = ORDERS (durable w) ++ [hdr] /\
    to_db_number id = Some (ORD_ID hdr) /\
    to_db_number ta = Some (TOTAL_AMOUNT hdr) /\
    to_db_number td = Some (TOTAL_DISCOUNT hdr) /\
    ORDER_DATE hdr = (if truthy (field b "order_date")
                      then DateOf (field b "order_date") else DateNow) /\
    fst (exec_statement (SelectOrder id) (durable (snd (orders_raw e b w)))) =
      inr (mkResult [1%Z]).
Proof.
  intros H.
  assert (Hs : is_success (fst (orders_raw e b w)) = true) by (rewrite H; reflexivity).
  destruct (orders_raw_success_inv StringToNumber ObjectToString e b w Hs)
    as (_ & _ & ta' & td' & id' & header & binds & hdr & rows & _ & Hresp & Hid
        & Hb & _ & Hh & Hfresh & _ & Hd & _).
  rewrite Hresp in H. injection H as -> -> ->.
  destruct (row_of_order_binds_fields _ _ Hh) as (Hk & Hta & Htd & _ & _ & Hdate).
  destruct (bind_order_fields StringToNumber ObjectToString _ _ _ _ _ _ header Hb)
    as (Hoid & _ & _ & Hota & Hotd & Hodate).
  assert (ob_ord_id header = id) as Hobid by congruence.
  rewrite Hobid in Hk. rewrite Hota in Hta. rewrite Hotd in Htd.
  rewrite Hodate in Hdate.
  exists hdr. rewrite Hd. simpl. repeat split; try assumption.
  rewrite Hk. rewrite filter_app. unfold has_order in Hfresh.
  rewrite (filter_none _ _ Hfresh). simpl.
  rewrite db_number_eqb_refl. reflexivity.
Qed.

(** X16: on success every stored line carries the order's key and the
    line's own values after numeric coercion; a line without discount is
    stored with discount 0, and a line without comment or rating with NULL
    there. *)
Theorem stored_lines_match_submission (e : env) (b : value) (w : world) :
  is_success (fst (orders_raw e b w)) = true ->
  exists rows,
    ORD_DTL (durable (snd (orders_raw e b w))) = ORD_DTL (durable w) ++ rows /\
    Forall2 (fun l r =>
      stored_as (field b "ord_id") (DTL_ORD_ID r) /\
      stored_as (field l "qty") (DTL_QTY r) /\
      stored_as (field l "unit_price") (DTL_UNIT_PRICE r) /\
      stored_as (field l "prd_id") (DTL_PRD_ID r) /\
      stored_as (field l "shp_stat_id") (DTL_SHP_STAT_ID r) /\
      (if is_nullish (field l "discount") then DTL_DISCOUNT r = (0, 0)%Z
       else stored_as (field l "discount") (DTL_DISCOUNT r)) /\
      DTL_COMMENT_TEXT r = (if is_nullish (field l "comment_text") then VNull
                            else field l "comment_text") /\
      DTL_RATING r = (if is_nullish (field l "rating") then VNull
                      else field l "rating"))
      (items (field b "lines")) rows.
Proof.
  intros Hs.
  destruct (orders_raw_success_inv StringToNumber ObjectToString e b w Hs)
    as (_ & _ & ta & td & id & header & binds & hdr & rows & _ & _ & _ & _
        & Hbs & _ & _ & Hrows & Hd & _).
  exists rows. rewrite Hd. split; [reflexivity|].
  pose proof (rows_match_lines _ _ _ _ Hbs Hrows) as Hmatch.
  clear Hd Hs Hbs Hrows.
  induction Hmatch as [|l r ls rs (bd & Hl & Hlr) _ IH]; constructor; [|exact IH].
  destruct (row_of_line_binds_fields _ _ Hlr)
    as (Hk & Hq & Hu & Hdisc & Hp & Hsh & Hc & Hrt).
  destruct (bind_line_fields _ _ _ Hl)
    as (Bk & Bq & Bu & Bdisc & Bp & Bsh & Bc & Brt).
  unfold stored_as.
  split; [eexists; split; [exact Bk|exact Hk]|].
  split; [eexists; split; [exact Bq|exact Hq]|].
  split; [eexists; split; [exact Bu|exact Hu]|].
  split; [eexists; split; [exact Bp|exact Hp]|].
  split; [eexists; split; [exact Bsh|exact Hsh]|].
  split; [|split].
  - unfold bind_discount in Bdisc.
    destruct (is_nullish (field l "discount")).
    + injection Bdisc as Bz. rewrite <- Bz in Hdisc.
      assert (Hz : Some (0, 0)%Z = Some (DTL_DISCOUNT r)) by exact Hdisc.
      injection Hz as <-. reflexivity.
    + eexists. split; [exact Bdisc|exact Hdisc].
  - rewrite Hc, Bc. reflexivity.
  - rewrite Hrt, Brt. reflexivity.
Qed.

Lemma commit_in_prefix (n : nat) (a b c d x : event) :
  a <> EvCommit -> b <> EvCommit -> c <> EvCommit -> d <> EvCommit ->
  In EvCommit (firstn n [a; b; c; d; x]) ->
  firstn n [a; b; c; d; x] = [a; b; c; d; x].
Proof.
  intros Ha Hb Hc Hd Hin.
  destruct n as [|[|[|[|[|n]]]]]; simpl in Hin |- *; rewrite ?firstn_nil;
    try reflexivity; exfalso; intuition congruence.
Qed.

Lemma order_tx_commit_last (oid od uid pid : value) (ls : list value)
      (ta td : float) (e : env) (w : world) :
  In EvCommit (skipn (List.length (log w))
                     (log (snd (withConn e (order_tx oid od uid pid ls ta td) w)))) ->
  exists id header binds,
    Number oid = Some id /\
    bind_order oid od uid pid ta td = Some header /\
    bind_lines oid ls = Some binds /\
    skipn (List.length (log w))
          (log (snd (withConn e (order_tx oid od uid pid ls ta td) w))) =
    [EvGetConnection;
     EvExecute (SelectOrder id) false;
     EvExecute (InsertOrder header) false;
     EvExecuteMany binds false;
     EvCommit;
     EvClose].
Proof.
  destruct (connect_fault e) as [m|] eqn:Hc.
  { rewrite (withConn_not_acquired e _ w m Hc). simpl.
    rewrite skipn_app, skipn_all, Nat.sub_diag. simpl.
    intros [H|[]]. discriminate. }
  destruct (order_tx_log StringToNumber ObjectToString oid od uid pid ls ta td e w)
    as (n & Hlog).
  rewrite Hlog, Hc. rewrite skipn_app, skipn_all, Nat.sub_diag. cbn [skipn app].
  intros Hin. apply in_app_or in Hin as [Hin|[Hin|[]]]; [|discriminate].
  assert (Hplan : In EvCommit (planned_calls oid od uid pid ls ta td)).
  { apply in_firstn_in in Hin. destruct Hin as [Hin|Hin]; [discriminate|exact Hin]. }
  unfold planned_calls in Hplan, Hin |- *.
  destruct (Number oid) as [id|]; [|destruct Hplan].
  destruct Hplan as [Hplan|Hplan]; [discriminate|].
  destruct (bind_order oid od uid pid ta td) as [header|]; [|destruct Hplan].
  destruct Hplan as [Hplan|Hplan]; [discriminate|].
  destruct (bind_lines oid ls) as [binds|]; [|destruct Hplan].
  exists id, header, binds. repeat split.
  rewrite (commit_in_prefix n _ _ _ _ _) by (discriminate || exact Hin).
  reflexivity.
Qed.

(** X17: the handler never commits early.  If a request calls [commit] at
    all, whether or not the commit then goes through, it has before that run
    the pre-check, the header insert and the batch insert of all lines, in
    this order and each with [autoCommit: false], and after it only closes
    the connection. *)
Theorem commit_only_after_both_inserts (e : env) (b : value) (w : world) :
  In EvCommit (new_events e b w) ->
  exists ta td id header binds,
    resolved_totals b = Some (ta, td) /\
    Number (field b "ord_id") = Some id /\
    submitted_header b ta td = Some header /\
    submitted_lines b = Some binds /\
    new_events e b w =
    [EvGetConnection;
     EvExecute (SelectOrder id) false;
     EvExecute (InsertOrder header) false;
     EvExecuteMany binds false;
     EvCommit;
     EvClose].
Proof.
  destruct (resolved_totals b) as [[ta td]|] eqn:Hr.
  - unfold new_events.
    rewrite (orders_raw_validated StringToNumber ObjectToString e b w ta td Hr).
    unfold submitted_tx.
    pose proof (order_tx_commit_last
                  (field b "ord_id") (field b "order_date") (field b "usr_id")
                  (field b "pay_stat_id") (items (field b "lines")) ta td e w)
      as Hlast.
    destruct (withConn e _ w) as [r w'].
    rewrite respond_world. simpl in Hlast. intros Hin.
    destruct (Hlast Hin) as (id & header & binds & Hid & Hb & Hbs & Hev).
    exists ta, td, id, header, binds. repeat split; assumption.
  - destruct (orders_raw_not_reaching StringToNumber ObjectToString e b w Hr)
      as [Hw _].
    rewrite (new_events_of_log StringToNumber ObjectToString e b w [])
      by (rewrite Hw, app_nil_r; reflexivity).
    intros [].
Qed.

End StorageInvariants.


Lemma lines_have_header_preserved_witness :
  lines_have_header (durable empty_world) /\
  lines_have_header (durable (snd (sample_run no_faults two_line_order empty_world))).
Proof.
  assert (H : lines_have_header (durable empty_world)) by constructor.
  split; [exact H|].
  apply (lines_have_header_preserved no_text_number sample_object_text
           no_faults two_line_order empty_world H).
Defined.

Lemma stored_header_matches_response_witness :
  fst (sample_run no_faults order_with_totals empty_world) =
    Responded (mkResponse 200 (OkBody 123 999.5 0)) /\
  exists hdr,
    ORDERS (durable (snd (sample_run no_faults order_with_totals empty_world))) =
      ORDERS (durable empty_world) ++ [hdr] /\
    to_db_number 123 = Some (ORD_ID hdr) /\
    to_db_number 999.5 = Some (TOTAL_AMOUNT hdr) /\
    to_db_number 0 = Some (TOTAL_DISCOUNT hdr) /\
    ORDER_DATE hdr = (if truthy (field order_with_totals "order_date")
                      then DateOf (field order_with_totals "order_date")
                      else DateNow) /\
    fst (exec_statement (SelectOrder 123)
           (durable (snd (sample_run no_faults order_with_totals empty_world)))) =
      inr (mkResult [1%Z]).
Proof.
  split; [vm_compute; reflexivity|].
  apply (stored_header_matches_response no_text_number sample_object_text
           no_faults order_with_totals empty_world 123%float 999.5%float 0%float).
  vm_compute. reflexivity.
Defined.

Lemma stored_lines_match_submission_witness :
  is_success (fst (sample_run no_faults two_line_order empty_world)) = true /\
  exists rows,
    ORD_DTL (durable (snd (sample_run no_faults two_line_order empty_world))) =
      ORD_DTL (durable empty_world) ++ rows /\
    List.length rows = 2.
Proof.
  split; [reflexivity|].
  destruct (stored_lines_match_submission no_text_number sample_object_text
              no_faults two_line_order empty_world eq_refl) as (rows & Hd & Hrows).
  exists rows. split; [exact Hd|].
  symmetry. exact (Forall2_length Hrows).
Defined.

Lemma existing_key_never_written_witness :
  Number no_text_number sample_object_text (field two_line_order "ord_id")
    = Some 123%float /\
  to_db_number 123 = Some (8655355533852672, -46)%Z /\
  has_order (8655355533852672, -46)%Z (durable after_first) = true /\
  is_success (fst (sample_run close_fails two_line_order after_first)) = false /\
  durable (snd (sample_run close_fails two_line_order after_first)) =
    durable after_first /\
  Forall (fun ev => is_write_call ev = false)
         (new_events no_text_number sample_object_text close_fails two_line_order
                     after_first).
Proof.
  split; [vm_compute; reflexivity|]. split; [vm_compute; reflexivity|].
  split; [vm_compute; reflexivity|].
  apply (existing_key_never_written no_text_number sample_object_text
           close_fails two_line_order after_first 123%float
           (8655355533852672, -46)%Z);
    vm_compute; reflexivity.
Defined.

Lemma commit_only_after_both_inserts_witness :
  In EvCommit (new_events no_text_number sample_object_text commit_fails
                          two_line_order empty_world) /\
  fst (sample_run commit_fails two_line_order empty_world) =
    Responded (mkResponse 500
      (ErrBody (MsgText "ORA-03113: end-of-file on communication channel"))) /\
  exists ta td id header binds,
    resolved_totals no_text_number sample_object_text two_line_order
      = Some (ta, td) /\
    Number no_text_number sample_object_text (field two_line_order "ord_id")
      = Some id /\
    submitted_header no_text_number sample_object_text two_line_order ta td
      = Some header /\
    submitted_lines no_text_number sample_object_text two_line_order = Some binds /\
    new_events no_text_number sample_object_text commit_fails two_line_order
               empty_world =
    [EvGetConnection;
     EvExecute (SelectOrder id) false;
     EvExecute (InsertOrder header) false;
     EvExecuteMany binds false;
     EvCommit;
     EvClose].
Proof.
  assert (H : In EvCommit (new_events no_text_number sample_object_text commit_fails
                                      two_line_order empty_world)).
  { vm_compute. do 4 right. left. reflexivity. }
  split; [exact H|]. split; [vm_compute; reflexivity|].
  apply (commit_only_after_both_inserts no_text_number sample_object_text
           commit_fails two_line_order empty_world H).
Defined.

(** With a runtime that reads the text 7 as 7 and the empty string as 0:
    [days=7] goes through, and an empty [limit] is read as 0, not as the
    default; a [days] that reads as NaN gives the default. *)
Example sample_query_binds :
  order_line_flat_binds tiny_text_number sample_object_text sample_query
  = Some (7%float, 0%float) /\
  sales_daily_binds tiny_text_number sample_object_text
    (VObj [("days", VStr "soon")])
  = Some 180%float /\
  sales_daily_binds tiny_text_number sample_object_text
    (VObj [("days", unconvertible)])
  = None.
Proof. repeat split; vm_compute; reflexivity. Qed.
